(** * SafeSite dashboard: the live-data poller and the detection trigger

    A shallow embedding of [main.js] (the [DOMContentLoaded] handler with
    its [click] listener, [refreshData] and the 5000 ms interval) and the
    properties of its specification, followed by the second script,
    [sup/main.js]: its theme toggle, its simulated readout (with what
    [Math.random] returns supplied by the environment and the floating
    point arithmetic kept abstract) and its scroll fade, and by the two
    scripts on one page, where both write the element [temp].  The
    contact form and the card motion of [sup/main.js] are left out.

    - the page is a finite map from element identifiers to [textContent];
    - JavaScript values are the values [JSON.parse] can build;
    - a block of statements is a computation in a state-and-exception
      monad over the page;
    - an [async] function is a resumption: it runs to its next [await],
      hands the event loop a continuation and is resumed with the answer. *)

From stdpp Require Import base option strings list gmap fin_maps pretty.
From Stdlib Require Import ZArith QArith Lia.

Close Scope Q_scope.


Set Warnings "-register-all,-clear-no-such-hyp".

(** ** Completions and the page *)

Inductive exn : Type :=
| TypeError     (* a property read or write on null or undefined, a failed
                   ToPrimitive, and what fetch() rejects with *)
| SyntaxError.  (* what res.json() rejects with *)

Inductive completion (A : Type) : Type :=
| Normal (a : A)
| Throw (e : exn).
Arguments Normal {A} a.
Arguments Throw {A} e.

(** The document, as far as the script sees it: the [textContent] of every
    element that has an identifier.  [document.getElementById id] is
    [null] exactly when [id] is not a key.

    The host page is not part of the repository.  It is taken to be a
    static page on which the elements the scripts look up are leaves: none
    of them contains another element with an identifier, and none appears
    or disappears after load.  On such a page writing through a handle
    taken at load (main.js, lines 2 to 7) is writing to the element the
    identifier names now, and an assignment to [textContent], which
    replaces the children of its element, changes no other text. *)
Abbreviation page := (gmap string string).

(** A block of statements: it reads and writes the page and either
    completes or throws; what it wrote before throwing stays written. *)
Definition js (A : Type) : Type := page → completion A * page.

Definition js_ret {A} (a : A) : js A := λ d, (Normal a, d).

Definition js_bind {A B} (m : js A) (f : A → js B) : js B := λ d,
  match m d with
  | (Normal a, d') => f a d'
  | (Throw e, d') => (Throw e, d')
  end.

Definition lift {A} (c : completion A) : js A := λ d, (c, d).

(** [try { body } catch (err) { handler }] *)
Definition try_catch {A} (body : js A) (handler : exn → js A) : js A := λ d,
  match body d with
  | (Normal a, d') => (Normal a, d')
  | (Throw e, d') => handler e d'
  end.

Notation "'let*' x ':=' m 'in' k" := (js_bind m (λ x, k))
  (at level 10, x name, m at level 100, k at level 200).
Notation "m ';;' k" := (js_bind m (λ _, k))
  (at level 100, k at level 200, right associativity).

(** [el.textContent = text] where [el] is [document.getElementById id]:
    a [TypeError] when [el] is [null]. *)
Definition set_textContent (id text : string) : js unit := λ d,
  match d !! id with
  | Some _ => (Normal tt, <[id := text]> d)
  | None => (Throw TypeError, d)
  end.

(** The element handles of main.js, lines 2 to 7. *)
Definition runBtn : string := "runAI".
Definition status : string := "aiStatus".
Definition liveData : string := "liveData".
Definition tempSpan : string := "temp".
Definition gasSpan : string := "gas".
Definition helmetSpan : string := "helmet".

(** A JavaScript [Number] and the text a template literal gives it
    ([Number::toString]).  The script never computes with a number, it
    only interpolates it, so both stay abstract. *)
Class JSNumber (Number : Type) : Type :=
  NumberToString : Number → string.

Section Dashboard.

Context {Number : Type} {number : JSNumber Number}.

(** ** JavaScript values *)

(** What [JSON.parse] returns, plus [undefined], the value of a missing
    property.  An object lists its own properties; the first entry of a
    key is the one a property read finds. *)
Inductive value : Type :=
| VUndefined
| VNull
| VBool (b : bool)
| VNum (n : Number)
| VStr (s : string)
| VArr (items : list value)
| VObj (props : list (string * value)).

Fixpoint own_property (props : list (string * value)) (key : string) : option value :=
  match props with
  | [] => None
  | (k, v) :: rest => if String.eqb k key then Some v else own_property rest key
  end.

(** [v.key] for the property names this script reads ([status], [data],
    [message], [temperature], [gas_level], [helmet_violations]); none of
    them is defined on a built-in prototype, so on anything but an object
    with that own property the read gives [undefined], and on [null] and
    [undefined] it throws. *)
Definition get (v : value) (key : string) : completion value :=
  match v with
  | VUndefined | VNull => Throw TypeError
  | VObj props => Normal (default VUndefined (own_property props key))
  | _ => Normal VUndefined
  end.

(** [ToString], as a template literal applies it.  A parsed object has no
    callable own property: one named [toString] shadows
    [Object.prototype.toString] and makes [OrdinaryToPrimitive] throw.
    An array goes through [Array.prototype.join]. *)
Fixpoint ToString (v : value) : completion string :=
  match v with
  | VUndefined => Normal "undefined"
  | VNull => Normal "null"
  | VBool b => Normal (if b then "true" else "false")
  | VNum n => Normal (NumberToString n)
  | VStr s => Normal s
  | VArr items =>
      (fix join (l : list value) : completion string :=
         match l with
         | [] => Normal ""
         | x :: rest =>
             let head :=
               match x with
               | VUndefined | VNull => Normal ""
               | _ => ToString x
               end in
             match head with
             | Throw e => Throw e
             | Normal s =>
                 match rest with
                 | [] => Normal s
                 | _ :: _ =>
                     match join rest with
                     | Throw e => Throw e
                     | Normal r => Normal (s +:+ "," +:+ r)
                     end
                 end
             end
         end) items
  | VObj props =>
      match own_property props "toString" with
      | Some _ => Throw TypeError
      | None => Normal "[object Object]"
      end
  end.

(** [v === "..."] against a string literal. *)
Definition strict_eq_string (v : value) (s : string) : bool :=
  match v with
  | VStr s' => String.eqb s' s
  | _ => false
  end.

(** [${obj.key}] inside a template literal. *)
Definition interpolate (obj : value) (key : string) : completion string :=
  match get obj key with
  | Normal v => ToString v
  | Throw e => Throw e
  end.

(** ** The network *)

(** A [Response]: its HTTP status and what [JSON.parse] makes of its body
    ([None] when the body is not JSON). *)
Record response : Type := Response {
  http_status : nat;
  parsed_body : option value
}.

(** [res.json()] *)
Definition json (res : response) : completion value :=
  match parsed_body res with
  | Some v => Normal v
  | None => Throw SyntaxError
  end.

(** ** Async functions *)

(** An async call between two turns of the event loop: settled, or parked
    at [await fetch(url)] or at [await res.json()] with the rest of its
    body.  [fetch] settles with a response whatever its status, or rejects
    when the request could not be made. *)
Inductive task : Type :=
| Settled (c : completion unit)
| AwaitFetch (url : string) (k : completion response → page → task * page)
| AwaitJson (res : response) (k : completion value → page → task * page).

Definition handler : Type := page → task * page.

(** Run a block to the end of the async function. *)
Definition settle (m : js unit) : handler := λ d,
  let '(c, d') := m d in (Settled c, d').

(** A call parked at [await fetch(...)] goes on when the fetch settles. *)
Definition resume_fetch (r : completion response) (t : task) : handler := λ d,
  match t with
  | AwaitFetch _ k => k r d
  | _ => (t, d)
  end.

(** A call parked at [await res.json()] goes on when the body has been read
    and parsed. *)
Definition resume_json (t : task) : handler := λ d,
  match t with
  | AwaitJson res k => k (json res) d
  | _ => (t, d)
  end.

(** A call whose fetch settles with [r] when the page is [d], run on to its
    end with no other handler in between. *)
Definition answered (r : completion response) (t : task) : handler := λ d,
  let '(t1, d1) := resume_fetch r t d in resume_json t1 d1.

(** ** The detection trigger (main.js, lines 10 to 24) *)

Definition run_ai_url : string := "http://127.0.0.1:5001/run_ai".

Definition busy_message : string := "🚀 Running AI Detection...".
Definition cannot_connect : string := "⚠️ Cannot connect to backend.".

(** Lines 15 to 20, once [data] is there. *)
Definition runAI_report (data : value) : js unit :=
  let* data_status := lift (get data "status") in
  if strict_eq_string data_status "success" then
    let* data_data := lift (get data "data") in
    let* violations := lift (get data_data "helmet_violations") in
    let* shown := lift (ToString violations) in
    set_textContent status ("✅ Detection Complete! Helmet Violations: " +:+ shown)
  else
    let* message := lift (interpolate data "message") in
    set_textContent status ("❌ Error: " +:+ message).

(** Lines 21 to 23. *)
Definition runAI_catch (err : exn) : js unit :=
  set_textContent status cannot_connect.

(** The [click] listener.  Line 11 is outside the [try]: when it throws,
    the call is over and its promise is rejected. *)
Definition runAI_click : handler := λ d,
  match set_textContent status busy_message d with
  | (Throw e, d') => (Settled (Throw e), d')
  | (Normal _, d') =>
      (AwaitFetch run_ai_url (λ fetched,
         match fetched with
         | Throw err => settle (runAI_catch err)
         | Normal res => λ d,
             (AwaitJson res (λ parsed,
                match parsed with
                | Throw err => settle (runAI_catch err)
                | Normal data =>
                    settle (try_catch (runAI_report data) runAI_catch)
                end), d)
         end), d')
  end.

(** ** The poller (main.js, lines 27 to 38) *)

Definition get_data_url : string := "http://127.0.0.1:5001/get_data".

Definition no_live_data : string := "No live data available.".

(** The text of line 31. *)
Definition liveData_text (data : value) : completion string :=
  match interpolate data "temperature" with
  | Throw e => Throw e
  | Normal temperature =>
      match interpolate data "gas_level" with
      | Throw e => Throw e
      | Normal gas_level =>
          match interpolate data "helmet_violations" with
          | Throw e => Throw e
          | Normal helmet_violations =>
              Normal ("🌡️ Temp: " +:+ temperature +:+ " °C | 🧪 Gas: " +:+ gas_level
                      +:+ " ppm | ⛑️ Helmet Violations: " +:+ helmet_violations)
          end
      end
  end.

(** Lines 31 to 34, once [data] is there. *)
Definition refreshData_render (data : value) : js unit :=
  let* summary := lift (liveData_text data) in
  set_textContent liveData summary ;;
  let* temperature := lift (interpolate data "temperature") in
  set_textContent tempSpan (temperature +:+ " °C") ;;
  let* gas_level := lift (interpolate data "gas_level") in
  set_textContent gasSpan (gas_level +:+ " ppm") ;;
  let* helmet_violations := lift (interpolate data "helmet_violations") in
  set_textContent helmetSpan helmet_violations.

(** Lines 35 to 37. *)
Definition refreshData_catch (err : exn) : js unit :=
  set_textContent liveData no_live_data.

Definition refreshData : handler := λ d,
  (AwaitFetch get_data_url (λ fetched,
     match fetched with
     | Throw err => settle (refreshData_catch err)
     | Normal res => λ d,
         (AwaitJson res (λ parsed,
            match parsed with
            | Throw err => settle (refreshData_catch err)
            | Normal data =>
                settle (try_catch (refreshData_render data) refreshData_catch)
            end), d)
     end), d).

(** Did the call take its [catch] block?  [r] is how the fetch settled and
    [d] the page when the body had been read. *)
Definition refreshData_failed (r : completion response) (d : page) : bool :=
  match r with
  | Throw _ => true
  | Normal res =>
      match json res with
      | Throw _ => true
      | Normal data =>
          match refreshData_render data d with
          | (Throw _, _) => true
          | (Normal _, _) => false
          end
      end
  end.

(** The failures that come with the answer itself: the fetch rejected, the
    body was not JSON, or line 31 threw on what it parsed to. *)
Definition no_reading (r : completion response) : bool :=
  match r with
  | Throw _ => true
  | Normal res =>
      match json res with
      | Throw _ => true
      | Normal data =>
          match liveData_text data with
          | Throw _ => true
          | Normal _ => false
          end
      end
  end.

(** ** The event loop *)

(** A [setInterval] registration: the callback runs when the clock reaches
    [due], and is then due again [period] later. *)
Record timer : Type := Timer {
  period : N;
  due : N;
  callback : handler
}.

Record world : Type := World {
  document : page;
  clock : N;                        (* ms since DOMContentLoaded *)
  intervals : list timer;           (* setInterval registrations *)
  click_listeners : list handler;   (* on the runAI button *)
  calls : list task;                (* every async call made, in call order *)
  requests : list (N * string)      (* every fetch made: when, and the url *)
}.

(** What a call asks of the network when it parks. *)
Definition request_of (now : N) (t : task) : list (N * string) :=
  match t with
  | AwaitFetch url _ => [(now, url)]
  | _ => []
  end.

(** Call an async function from the event loop: it runs to its first
    [await] (or to its end) and nobody looks at the promise it returns. *)
Definition invoke (w : world) (h : handler) : world :=
  let '(t, d) := h (document w) in
  {| document := d;
     clock := clock w;
     intervals := intervals w;
     click_listeners := click_listeners w;
     calls := calls w ++ [t];
     requests := requests w ++ request_of (clock w) t |}.

(** Call [i] goes on after its [await]. *)
Definition continue (i : nat) (go_on : task → handler) (w : world) : world :=
  match calls w !! i with
  | None => w
  | Some t =>
      let '(t', d) := go_on t (document w) in
      {| document := d;
         clock := clock w;
         intervals := intervals w;
         click_listeners := click_listeners w;
         calls := <[i := t']> (calls w);
         requests := requests w ++ request_of (clock w) t' |}
  end.

Definition setInterval (h : handler) (ms : N) (w : world) : world :=
  {| document := document w;
     clock := clock w;
     intervals := intervals w ++ [Timer ms (clock w + ms)%N h];
     click_listeners := click_listeners w;
     calls := calls w;
     requests := requests w |}.

Definition addEventListener_click (h : handler) (w : world) : world :=
  {| document := document w;
     clock := clock w;
     intervals := intervals w;
     click_listeners := click_listeners w ++ [h];
     calls := calls w;
     requests := requests w |}.

Definition fire (w : world) (t : timer) : world :=
  if decide (due t = clock w) then invoke w (callback t) else w.

Definition reschedule (now : N) (t : timer) : timer :=
  if decide (due t = now) then Timer (period t) (due t + period t)%N (callback t)
  else t.

(** One millisecond passes; the interval timers that are due fire. *)
Definition tick (w : world) : world :=
  let now := (clock w + 1)%N in
  let w1 := foldl fire
              {| document := document w;
                 clock := now;
                 intervals := intervals w;
                 click_listeners := click_listeners w;
                 calls := calls w;
                 requests := requests w |}
              (intervals w) in
  {| document := document w1;
     clock := now;
     intervals := reschedule now <$> intervals w;
     click_listeners := click_listeners w1;
     calls := calls w1;
     requests := requests w1 |}.

Inductive event : Type :=
| Tick                                            (* a millisecond passes *)
| Click                                           (* the user clicks runAI *)
| FetchSettled (i : nat) (r : completion response) (* call i: fetch settles *)
| BodyRead (i : nat).                             (* call i: json() settles *)

Definition step (w : world) (e : event) : world :=
  match e with
  | Tick => tick w
  | Click => foldl invoke w (click_listeners w)
  | FetchSettled i r =>
      match calls w !! i with
      | Some (AwaitFetch _ _) => continue i (resume_fetch r) w
      | _ => w
      end
  | BodyRead i =>
      match calls w !! i with
      | Some (AwaitJson _ _) => continue i resume_json w
      | _ => w
      end
  end.

Definition run (w : world) (events : list event) : world := foldl step w events.

(** The [DOMContentLoaded] listener (main.js, lines 1 to 42) on page [d]. *)
Definition DOMContentLoaded (d : page) : world :=
  let w0 := {| document := d; clock := 0%N; intervals := [];
               click_listeners := []; calls := []; requests := [] |} in
  let w1 := if decide (is_Some (d !! runBtn))
            then addEventListener_click runAI_click w0 else w0 in
  let w2 := setInterval refreshData 5000%N w1 in
  invoke w2 refreshData.

(** The times at which [/get_data] was requested. *)
Definition polls (w : world) : list N :=
  (filter (λ q, q.2 = get_data_url) (requests w)).*1.

Fixpoint ticks (events : list event) : nat :=
  match events with
  | [] => 0
  | Tick :: rest => S (ticks rest)
  | _ :: rest => ticks rest
  end.

(** ** What the script's calls have in common *)

(** A block that never adds or removes an element. *)
Definition keeps_elements {A} (m : js A) : Prop :=
  ∀ d : page, dom (m d).2 = dom d.

Definition is_settled (t : task) : Prop :=
  match t with
  | Settled _ => True
  | _ => False
  end.

(** Settled, or parked at [res.json()] with nothing but statements left. *)
Definition past_fetch (t : task) : Prop :=
  match t with
  | Settled _ => True
  | AwaitJson _ k => ∀ parsed d, is_settled (k parsed d).1 ∧ dom (k parsed d).2 = dom d
  | AwaitFetch _ _ => False
  end.

(** A call that makes no request beyond the one it may be parked at, and
    never adds or removes an element. *)
Definition tame (t : task) : Prop :=
  match t with
  | AwaitFetch _ k => ∀ fetched d, past_fetch (k fetched d).1 ∧ dom (k fetched d).2 = dom d
  | _ => past_fetch t
  end.

Definition tame_handler (h : handler) : Prop :=
  ∀ d : page, tame (h d).1 ∧ dom (h d).2 = dom d.

(** What holds of the event loop from [DOMContentLoaded] on page [d0]
    onwards: the page keeps its elements, the one interval is the poller's,
    due at the next multiple of 5000, the poller has asked for data at
    every multiple of 5000 so far, and the only listener is the one on the
    button, if the page has it. *)
Definition steady (d0 : page) (w : world) : Prop :=
  dom (document w) = dom d0
  ∧ Forall tame (calls w)
  ∧ click_listeners w = (if decide (is_Some (d0 !! runBtn)) then [runAI_click] else [])
  ∧ ∃ n : nat,
      (5000 * N.of_nat n ≤ clock w < 5000 * N.of_nat (S n))%N
      ∧ intervals w = [Timer 5000%N (5000 * N.of_nat (S n))%N refreshData]
      ∧ polls w = (λ i, 5000 * N.of_nat i)%N <$> seq 0 (S n).

End Dashboard.

(** ** A page and some answers to try the script on *)

(** A number written as the text [Number::toString] gives for it. *)
Inductive literal : Type := Literal (text : string).

#[export] Instance literal_number : JSNumber literal :=
  λ n, match n with Literal text => text end.

(** The dashboard page: every element the script looks up is there. *)
Definition dashboard_page : page :=
  list_to_map [("runAI", "Run AI Detection"); ("aiStatus", "");
               ("liveData", "Loading..."); ("temp", "--"); ("gas", "--");
               ("helmet", "--")].

(** A page that has the button but not the status line. *)
Definition page_without_status : page :=
  list_to_map [("runAI", "Run AI Detection"); ("liveData", "Loading...");
               ("temp", "--"); ("gas", "--"); ("helmet", "--")].

(** A page without the live-data line. *)
Definition page_without_liveData : page :=
  list_to_map [("temp", "--"); ("gas", "--"); ("helmet", "--")].

(** A page without the gas reading. *)
Definition page_without_gas : page :=
  list_to_map [("liveData", "Loading..."); ("temp", "--"); ("helmet", "--")].

(** [{"temperature": 36.2, "gas_level": 120, "helmet_violations": 3}] *)
Definition reading_36_2 : value :=
  VObj [("temperature", VNum (Literal "36.2"));
        ("gas_level", VNum (Literal "120"));
        ("helmet_violations", VNum (Literal "3"))].

(** [{}] with status 500: a failure for HTTP, a JSON body for the script. *)
Definition error_500 : response :=
  Response 500 (Some (VObj [] : @value literal)).

(** [{"status": "success", "data": {"helmet_violations": 3}}] *)
Definition detection_success : value :=
  VObj [("status", VStr "success");
        ("data", VObj [("helmet_violations", VNum (Literal "3"))])].

(** [{"status": "error", "message": "camera offline"}] *)
Definition detection_error : value :=
  VObj [("status", VStr "error" : @value literal);
        ("message", VStr "camera offline")].

(** [{"status": "success"}] *)
Definition success_without_data : value :=
  VObj [("status", VStr "success" : @value literal)].

(** * More of the two scripts *)

(** ** main.js: what a run asks of the backend, and what it may write *)

Section Further.

Context {Number : Type} {number : JSNumber Number}.

(** The times at which [/run_ai] was requested. *)
Definition detections (w : @world Number) : list N :=
  (filter (λ q, q.2 = run_ai_url) (requests w)).*1.

Fixpoint clicks (events : list (@event Number)) : nat :=
  match events with
  | [] => 0
  | Click :: rest => S (clicks rest)
  | _ :: rest => clicks rest
  end.

(** The elements [refreshData] writes, and all that main.js writes. *)
Definition poll_elements : gset string :=
  {[liveData; tempSpan; gasSpan; helmetSpan]}.

Definition script_elements : gset string := {[status]} ∪ poll_elements.

(** A block that leaves every element outside [ids] alone. *)
Definition writes_only {A} (ids : gset string) (m : js A) : Prop :=
  ∀ (d : page) (id : string), id ∉ ids → (m d).2 !! id = d !! id.

(** The same for a call, through its awaits. *)
Definition confined_past_fetch (ids : gset string) (t : @task Number) : Prop :=
  match t with
  | Settled _ => True
  | AwaitJson _ k =>
      ∀ parsed d, is_settled (k parsed d).1
                  ∧ ∀ id, id ∉ ids → (k parsed d).2 !! id = d !! id
  | AwaitFetch _ _ => False
  end.

Definition confined (ids : gset string) (t : @task Number) : Prop :=
  match t with
  | AwaitFetch _ k =>
      ∀ fetched d, confined_past_fetch ids (k fetched d).1
                   ∧ ∀ id, id ∉ ids → (k fetched d).2 !! id = d !! id
  | _ => confined_past_fetch ids t
  end.

End Further.

(** ** sup/main.js: theme toggle, simulated readout, scroll fade *)

(** The arithmetic the simulated readout does on what [Math.random]
    returns.  It is floating point, so it stays an interface: numeric
    literals by their source text, [+], [*], [Math.floor] and
    [Number.prototype.toFixed]. *)
Class JSArith (Number : Type) : Type := {
  NumericLiteral : string → Number;
  Number_add : Number → Number → Number;
  Number_mul : Number → Number → Number;
  Math_floor : Number → Number;
  toFixed : Number → nat → string
}.

(** What the second script sees of the browser: the texts of the elements
    with an identifier, the class list of [document.body], [localStorage],
    and, in document order, [style.boxShadow] of the [.metric] elements and
    [style.opacity] of the [section] elements.  The script is taken to
    run with [document.body] in place and [localStorage] usable, so
    neither of the two can throw; the [.metric] and [section] elements
    are those of the page as loaded. *)
Record browser : Type := Browser {
  texts : page;
  body_class : gset string;
  local_storage : gmap string string;
  metric_shadows : list string;
  section_opacity : list string
}.

(** The element handles of sup/main.js, lines 2 and 24 to 26. *)
Definition themeToggle : string := "theme-toggle".
Definition hr : string := "hr".
Definition temp : string := "temp".
Definition alerts : string := "alerts".

(** [el.textContent = text] in the browser. *)
Definition write (id text : string) (b : browser) : completion unit * browser :=
  let '(c, t) := set_textContent id text (texts b) in
  (c, {| texts := t;
         body_class := body_class b;
         local_storage := local_storage b;
         metric_shadows := metric_shadows b;
         section_opacity := section_opacity b |}).

(** [!x] for what [localStorage.getItem] returns: [null] and the empty
    string are falsy. *)
Definition is_falsy (x : option string) : bool :=
  match x with
  | None => true
  | Some s => bool_decide (s = "")
  end.

(** Lines 5 to 12, with what [matchMedia("(prefers-color-scheme: dark)")]
    answers. *)
Definition theme_load (prefers_dark : bool) (b : browser) : completion unit * browser :=
  let stored := local_storage b !! "theme" in
  if bool_decide (stored = Some "dark") || (is_falsy stored && prefers_dark) then
    let b1 := {| texts := texts b;
                 body_class := {["dark"]} ∪ body_class b;
                 local_storage := local_storage b;
                 metric_shadows := metric_shadows b;
                 section_opacity := section_opacity b |} in
    if decide (is_Some (texts b !! themeToggle))
    then write themeToggle "☀️" b1
    else (Normal tt, b1)
  else (Normal tt, b).

(** [body.classList.toggle("dark")] *)
Definition toggle_dark (classes : gset string) : gset string :=
  if decide ("dark" ∈ classes) then classes ∖ {["dark"]} else {["dark"]} ∪ classes.

(** The [click] listener of the toggle, lines 15 to 20. *)
Definition theme_click (b : browser) : completion unit * browser :=
  let classes := toggle_dark (body_class b) in
  let dark := bool_decide ("dark" ∈ classes) in
  write themeToggle (if dark then "☀️" else "🌙")
    {| texts := texts b;
       body_class := classes;
       local_storage := <["theme" := if dark then "dark" else "light"]> (local_storage b);
       metric_shadows := metric_shadows b;
       section_opacity := section_opacity b |}.

(** The [scroll] listener, lines 63 to 68: [top i] is what
    [getBoundingClientRect().top] gives for the [i]-th section. *)
Definition scroll_fade (innerHeight : Z) (top : nat → Q) (b : browser)
  : completion unit * browser :=
  (Normal tt,
   {| texts := texts b;
      body_class := body_class b;
      local_storage := local_storage b;
      metric_shadows := metric_shadows b;
      section_opacity :=
        imap (λ i opacity,
                if Qlt_le_dec (top i) (inject_Z (innerHeight - 80)) then "1"
                else opacity)
             (section_opacity b) |}).

Section Readout.

Context {Number : Type} {number : JSNumber Number} {arith : JSArith Number}.

(** The three texts of lines 29 to 31 and the shadow of line 33, each from
    its own call of [Math.random]. *)
Definition hr_text (random : Number) : string :=
  NumberToString
    (Math_floor (Number_add (NumericLiteral "70")
                            (Number_mul random (NumericLiteral "20"))))
  +:+ " bpm".

Definition temp_text (random : Number) : string :=
  toFixed (Number_add (NumericLiteral "33")
                      (Number_mul random (NumericLiteral "2"))) 1
  +:+ " °C".

Definition alerts_text (random : Number) : string :=
  NumberToString (Math_floor (Number_mul random (NumericLiteral "3"))).

Definition metric_shadow (random : Number) : string :=
  "0 0 20px rgba(0,217,255,"
  +:+ NumberToString (Number_add (NumericLiteral "0.3")
                                 (Number_mul random (NumericLiteral "0.2")))
  +:+ ")".

(** The interval callback, lines 28 to 35: [random n] is what the [n]-th
    call of [Math.random] in this run of the callback returns. *)
Definition sim_callback (random : nat → Number) (b : browser)
  : completion unit * browser :=
  let '(c, t) := (set_textContent hr (hr_text (random 0)) ;;
                  set_textContent temp (temp_text (random 1)) ;;
                  set_textContent alerts (alerts_text (random 2))) (texts b) in
  match c with
  | Throw e =>
      (Throw e,
       {| texts := t;
          body_class := body_class b;
          local_storage := local_storage b;
          metric_shadows := metric_shadows b;
          section_opacity := section_opacity b |})
  | Normal _ =>
      (Normal tt,
       {| texts := t;
          body_class := body_class b;
          local_storage := local_storage b;
          metric_shadows :=
            imap (λ i _, metric_shadow (random (3 + i))) (metric_shadows b);
          section_opacity := section_opacity b |})
  end.

(** The second script at work: the browser, which listeners and timers it
    has registered, and the errors no handler caught. *)
Record sup_world : Type := SupWorld {
  seen : browser;
  theme_listener : bool;       (* click on the toggle, line 15 *)
  sim_timer : option N;        (* the interval of line 28 and its period *)
  scroll_listener : bool;      (* line 63 *)
  uncaught : list exn
}.

Inductive sup_event : Type :=
| ThemeClick                                (* the user clicks the toggle *)
| SimTick (random : nat → Number)           (* the interval fires *)
| Scroll (innerHeight : Z) (top : nat → Q). (* the window scrolls *)

(** Run a listener; what it throws goes uncaught. *)
Definition deliver (h : browser → completion unit * browser) (w : sup_world)
  : sup_world :=
  let '(c, b) := h (seen w) in
  {| seen := b;
     theme_listener := theme_listener w;
     sim_timer := sim_timer w;
     scroll_listener := scroll_listener w;
     uncaught := uncaught w ++ match c with Throw e => [e] | Normal _ => [] end |}.

Definition sup_step (w : sup_world) (e : sup_event) : sup_world :=
  match e with
  | ThemeClick => if theme_listener w then deliver theme_click w else w
  | SimTick random =>
      match sim_timer w with
      | Some _ => deliver (sim_callback random) w
      | None => w
      end
  | Scroll innerHeight top =>
      if scroll_listener w then deliver (scroll_fade innerHeight top) w else w
  end.

Definition sup_run (w : sup_world) (events : list sup_event) : sup_world :=
  foldl sup_step w events.

(** The script itself, run once when the page loads; a throw at top level
    ends it there.  The listeners of the contact form (lines 39 to 46) and
    of the about cards (lines 49 to 60) are registered in between and are
    not part of this model. *)
Definition sup_main (prefers_dark : bool) (b : browser) : sup_world :=
  match theme_load prefers_dark b with
  | (Throw e, b1) =>
      {| seen := b1; theme_listener := false; sim_timer := None;
         scroll_listener := false; uncaught := [e] |}
  | (Normal _, b1) =>
      {| seen := b1;
         theme_listener := bool_decide (is_Some (texts b1 !! themeToggle));
         sim_timer :=
           if decide (is_Some (texts b1 !! hr) ∧ is_Some (texts b1 !! temp)
                      ∧ is_Some (texts b1 !! alerts))
           then Some 1800%N else None;
         scroll_listener := true;
         uncaught := [] |}
  end.

Fixpoint theme_clicks (events : list sup_event) : nat :=
  match events with
  | [] => 0
  | ThemeClick :: rest => S (theme_clicks rest)
  | _ :: rest => theme_clicks rest
  end.

(** Was section [i] above the line at one of these scroll events? *)
Fixpoint came_into_view (i : nat) (events : list sup_event) : bool :=
  match events with
  | [] => false
  | Scroll innerHeight top :: rest =>
      (if Qlt_le_dec (top i) (inject_Z (innerHeight - 80)) then true else false)
      || came_into_view i rest
  | _ :: rest => came_into_view i rest
  end.

(** What holds of the second script from the load of browser [b] onwards:
    nothing went uncaught, the page has the elements it had, and the
    listeners and the timer are those the presence checks of the load
    allowed. *)
Definition sup_steady (b : browser) (w : sup_world) : Prop :=
  uncaught w = []
  ∧ dom (texts (seen w)) = dom (texts b)
  ∧ theme_listener w = bool_decide (is_Some (texts b !! themeToggle))
  ∧ sim_timer w
    = (if decide (is_Some (texts b !! hr) ∧ is_Some (texts b !! temp)
                  ∧ is_Some (texts b !! alerts))
       then Some 1800%N else None)
  ∧ scroll_listener w = true.

End Readout.

(** ** A landing page to try the second script on *)

(** Numbers left as the text of the expression that computes them. *)
Inductive symbolic : Type := Symbolic (text : string).

Definition symbolic_text (n : symbolic) : string :=
  match n with Symbolic text => text end.

#[export] Instance symbolic_number : JSNumber symbolic | 10 := symbolic_text.

#[export] Instance symbolic_arith : JSArith symbolic | 10 := {|
  NumericLiteral text := Symbolic text;
  Number_add a b := Symbolic ("(" +:+ symbolic_text a +:+ " + " +:+ symbolic_text b +:+ ")");
  Number_mul a b := Symbolic ("(" +:+ symbolic_text a +:+ " * " +:+ symbolic_text b +:+ ")");
  Math_floor a := Symbolic ("Math.floor" +:+ symbolic_text a);
  toFixed a digits := symbolic_text a +:+ ".toFixed(" +:+ pretty digits +:+ ")"
|}.

(** The [n]-th value of [Math.random], by name. *)
Definition some_random (n : nat) : symbolic := Symbolic ("random" +:+ pretty n).

(** A landing page with the toggle, the three readouts, two metric cards
    and three sections, on a first visit. *)
Definition landing_page : browser :=
  {| texts := list_to_map [("theme-toggle", "🌙"); ("hr", "-- bpm");
                           ("temp", "-- °C"); ("alerts", "0")];
     body_class := ∅;
     local_storage := ∅;
     metric_shadows := [""; ""];
     section_opacity := [""; ""; ""] |}.

(** The same page on a later visit, after the theme was switched to
    light. *)
Definition landing_page_revisited : browser :=
  {| texts := list_to_map [("theme-toggle", "🌙"); ("hr", "-- bpm");
                           ("temp", "-- °C"); ("alerts", "0")];
     body_class := ∅;
     local_storage := {["theme" := "light"]};
     metric_shadows := [""; ""];
     section_opacity := [""; ""; ""] |}.

(** A page with nothing the second script looks up, but with sections. *)
Definition bare_page : browser :=
  {| texts := ∅;
     body_class := {["home"]};
     local_storage := {["theme" := "light"]};
     metric_shadows := [];
     section_opacity := [""; "0.5"] |}.

(** A page with two of the three readouts, and one metric card. *)
Definition page_without_alerts : browser :=
  {| texts := list_to_map [("theme-toggle", "🌙"); ("hr", "-- bpm");
                           ("temp", "-- °C")];
     body_class := ∅;
     local_storage := ∅;
     metric_shadows := ["none"];
     section_opacity := [] |}.

(** Sections 0 and 1 in view of a 700 px window, section 2 below it. *)
Definition first_layout (i : nat) : Q :=
  match i with
  | 0 => (-120.5)%Q
  | 1 => 400%Q
  | _ => 1300.25%Q
  end.

(** After scrolling on: section 0 far above, section 2 still below. *)
Definition second_layout (i : nat) : Q :=
  match i with
  | 0 => (-900)%Q
  | 1 => (-150)%Q
  | _ => 620%Q
  end.

(** ** Both scripts on one page *)

Section BothScripts.

Context {Number : Type} {number : JSNumber Number} {arith : JSArith Number}.








End BothScripts.

(** ** A page for both scripts *)




(** * Properties *)

Create HintDb page.

Section Properties.

Context {Number : Type} {number : JSNumber Number}.

(** ** Writing to the page *)

Lemma set_textContent_present (id text : string) (d : page) :
  is_Some (d !! id) → set_textContent id text d = (Normal tt, <[id := text]> d).
Proof. intros [old Hold]. unfold set_textContent. by rewrite Hold. Qed.

Lemma set_textContent_absent (id text : string) (d : page) :
  d !! id = None → set_textContent id text d = (Throw TypeError, d).
Proof. intros Hnone. unfold set_textContent. by rewrite Hnone. Qed.

(** A write never adds or removes an element. *)
Lemma present_insert (i j text : string) (d : page) :
  is_Some (d !! j) → is_Some (<[i := text]> d !! j).
Proof.
  intros Hj. rewrite lookup_insert. case_decide; [by eexists | done].
Qed.

(** Writing the same text twice is writing it once. *)
Lemma set_textContent_twice (id text : string) (d : page) :
  set_textContent id text (set_textContent id text d).2 = set_textContent id text d.
Proof.
  unfold set_textContent. destruct (d !! id) eqn:Hid; simpl.
  - by rewrite lookup_insert_eq, insert_insert_eq.
  - by rewrite Hid.
Qed.

Hint Resolve present_insert : page.

(** One write, on a page whose elements are known. *)
Ltac write_page :=
  first [ rewrite set_textContent_present
            by first [ solve [eauto 6 with page]
                     | apply elem_of_dom;
                       unfold liveData, tempSpan, gasSpan, helmetSpan, status in *;
                       set_solver ]
        | rewrite set_textContent_absent
            by (apply not_elem_of_dom;
                unfold liveData, tempSpan, gasSpan, helmetSpan, status in *;
                set_solver) ];
  simpl.

(** ** The poller *)

(** What answering a [refreshData] call comes to: its [catch] block alone
    when the fetch or [res.json()] rejects, lines 31 to 34 under the
    [try] otherwise.  The page the call was made on plays no part. *)
Lemma refreshData_answered (d0 d : page) (r : completion response) :
  answered r (refreshData d0).1 d =
  match r with
  | Throw err => settle (refreshData_catch err) d
  | Normal res =>
      match json res with
      | Throw err => settle (refreshData_catch err) d
      | Normal data =>
          settle (try_catch (refreshData_render data) refreshData_catch) d
      end
  end.
Proof.
  unfold answered, refreshData. simpl.
  destruct r as [res|err]; simpl.
  - by destruct (json res).
  - unfold settle. by destruct (refreshData_catch err d).
Qed.

(** The turn between the two awaits neither reads nor writes the page, so
    other handlers may run around it: what counts is the page on which the
    call is resumed last.  A rejected fetch ends the call in one turn. *)
Lemma refreshData_between_awaits (d0 d1 d2 : page) (res : response) :
  (resume_fetch (Normal res) (refreshData d0).1 d1).2 = d1
  ∧ resume_json (resume_fetch (Normal res) (refreshData d0).1 d1).1 d2
    = answered (Normal res) (refreshData d0).1 d2.
Proof. done. Qed.

Lemma refreshData_rejected_fetch (d0 d : page) (err : exn) :
  resume_fetch (Number:=Number) (Throw err) (refreshData d0).1 d
  = answered (Throw err) (refreshData d0).1 d.
Proof.
  rewrite refreshData_answered. reflexivity.
Qed.

(** When line 31 throws, nothing has been written yet. *)
Lemma refreshData_render_no_text (data : value) (d : page) (e : exn) :
  liveData_text data = Throw e → refreshData_render data d = (Throw e, d).
Proof. intros Htext. unfold refreshData_render, js_bind, lift. by rewrite Htext. Qed.

(** When line 31 has its text, so have lines 32 to 34. *)
Lemma liveData_text_fields (data : value) (summary : string) :
  liveData_text data = Normal summary →
  ∃ temperature gas_level helmet_violations,
    interpolate data "temperature" = Normal temperature
    ∧ interpolate data "gas_level" = Normal gas_level
    ∧ interpolate data "helmet_violations" = Normal helmet_violations
    ∧ summary = "🌡️ Temp: " +:+ temperature +:+ " °C | 🧪 Gas: " +:+ gas_level
                +:+ " ppm | ⛑️ Helmet Violations: " +:+ helmet_violations.
Proof.
  unfold liveData_text.
  destruct (interpolate data "temperature") as [t|]; [|done].
  destruct (interpolate data "gas_level") as [g|]; [|done].
  destruct (interpolate data "helmet_violations") as [h|]; [|done].
  intros [= <-]. by exists t, g, h.
Qed.

(** C1, as the script has it: on a page with the liveData element, when the
    fetch rejects, when the body is not JSON, or when line 31 throws on what
    the body parsed to, the call ends normally (the error stops in the
    [catch] block) and liveData reads exactly "No live data available.";
    nothing else on the page changes. *)
Theorem refreshData_no_reading (d0 d : page) (r : completion response) :
  is_Some (d !! liveData) →
  no_reading r = true →
  answered r (refreshData d0).1 d
  = (Settled (Normal tt), <[liveData := "No live data available."]> d).
Proof.
  intros Hlive Hbad. rewrite refreshData_answered.
  assert (Hcatch : ∀ err, settle (Number:=Number) (refreshData_catch err) d
                    = (Settled (Normal tt), <[liveData := no_live_data]> d)).
  { intros err. unfold settle, refreshData_catch.
    by rewrite set_textContent_present. }
  unfold no_reading in Hbad.
  destruct r as [res|err]; [|apply Hcatch].
  destruct (json res) as [data|err]; [|apply Hcatch].
  destruct (liveData_text data) as [summary|err] eqn:Htext; [done|].
  unfold settle, try_catch.
  rewrite (refreshData_render_no_text _ _ _ Htext).
  apply Hcatch.
Qed.

Lemma interpolate_number (props : list (string * value)) (key : string) (n : Number) :
  own_property props key = Some (VNum n) →
  interpolate (VObj props) key = Normal (NumberToString n).
Proof. intros Hkey. unfold interpolate, get. by rewrite Hkey. Qed.

(** C5: a body with the three fields of a SensorReading, answered to a page
    that has the four display elements, is rendered field by field: the
    temperature with " °C", the gas level with " ppm", the helmet violations
    bare, and the three together in liveData.  Nothing else changes, and
    the HTTP status plays no part. *)
Theorem refreshData_renders_reading
    (d0 d : page) (code : nat) (props : list (string * value)) (t g h : Number) :
  is_Some (d !! liveData) → is_Some (d !! tempSpan) →
  is_Some (d !! gasSpan) → is_Some (d !! helmetSpan) →
  own_property props "temperature" = Some (VNum t) →
  own_property props "gas_level" = Some (VNum g) →
  own_property props "helmet_violations" = Some (VNum h) →
  ∃ d' : page,
    answered (Normal (Response code (Some (VObj props)))) (refreshData d0).1 d
    = (Settled (Normal tt), d')
    ∧ d' !! tempSpan = Some (NumberToString t +:+ " °C")
    ∧ d' !! gasSpan = Some (NumberToString g +:+ " ppm")
    ∧ d' !! helmetSpan = Some (NumberToString h)
    ∧ d' !! liveData
      = Some ("🌡️ Temp: " +:+ NumberToString t +:+ " °C | 🧪 Gas: "
              +:+ NumberToString g +:+ " ppm | ⛑️ Helmet Violations: "
              +:+ NumberToString h)
    ∧ ∀ id, id ∉ [liveData; tempSpan; gasSpan; helmetSpan] → d' !! id = d !! id.
Proof.
  intros Hlive Htemp Hgas Hhelmet Ht Hg Hh.
  rewrite refreshData_answered. simpl.
  unfold settle, try_catch, refreshData_render, js_bind, lift, liveData_text.
  rewrite (interpolate_number _ _ _ Ht), (interpolate_number _ _ _ Hg),
    (interpolate_number _ _ _ Hh).
  repeat write_page. eexists. split; [reflexivity|].
  unfold liveData, tempSpan, gasSpan, helmetSpan.
  repeat split; try by simplify_map_eq.
  intros id Hid. repeat rewrite lookup_insert_ne by set_solver. done.
Qed.




(** They are failures: such an answer sends the call to its [catch]. *)
Lemma no_reading_failed (r : completion response) (d : page) :
  no_reading r = true → refreshData_failed r d = true.
Proof.
  unfold no_reading, refreshData_failed.
  destruct r as [res|err]; [|done].
  destruct (json res) as [data|err]; [|done].
  destruct (liveData_text data) as [summary|err] eqn:Htext; [done|].
  by rewrite (refreshData_render_no_text _ _ _ Htext).
Qed.

Lemma no_reading_cases (code : nat) (err : exn) :
  no_reading (Throw err) = true
  ∧ no_reading (Normal (Response code None)) = true
  ∧ no_reading (Normal (Response code (Some VNull))) = true
  ∧ no_reading (Normal (Response code (Some (VObj [])))) = false.
Proof. done. Qed.



(** The [try] and [catch] of [refreshData] come to overwriting some
    elements that are there with texts fixed by the data: which ones, and
    how the block ends, depends on the page only through the elements it
    has. *)
Lemma refreshData_block_shape (data : value) (d : page) :
  ∃ (c : completion unit) (written : page),
    dom written ⊆ dom d
    ∧ ∀ d' : page, dom d' = dom d →
        try_catch (refreshData_render data) refreshData_catch d' = (c, written ∪ d').
Proof.
  unfold try_catch.
  destruct (liveData_text data) as [summary|err] eqn:Htext.
  - destruct (liveData_text_fields _ _ Htext) as (t & g & h & Ht & Hg & Hh & _).
    unfold refreshData_render, refreshData_catch, js_bind, lift.
    rewrite Htext, Ht, Hg, Hh. clear Htext Ht Hg Hh.
    destruct (decide (liveData ∈ dom d)) as [Hlive|Hlive];
      [destruct (decide (tempSpan ∈ dom d)) as [Htemp|Htemp];
       [destruct (decide (gasSpan ∈ dom d)) as [Hgas|Hgas];
        [destruct (decide (helmetSpan ∈ dom d)) as [Hhelmet|Hhelmet]|]|]|].
    + exists (Normal tt),
        (<[helmetSpan := h]> (<[gasSpan := g +:+ " ppm"]>
           (<[tempSpan := t +:+ " °C"]> {[liveData := summary]}))).
      split; [set_solver|]. intros d' Hdom. repeat write_page.
      by rewrite <- !insert_union_l, <- insert_union_singleton_l.
    + exists (Normal tt),
        (<[liveData := no_live_data]> (<[gasSpan := g +:+ " ppm"]>
           (<[tempSpan := t +:+ " °C"]> {[liveData := summary]}))).
      split; [set_solver|]. intros d' Hdom. repeat write_page.
      by rewrite <- !insert_union_l, <- insert_union_singleton_l.
    + exists (Normal tt),
        (<[liveData := no_live_data]>
           (<[tempSpan := t +:+ " °C"]> {[liveData := summary]})).
      split; [set_solver|]. intros d' Hdom. repeat write_page.
      by rewrite <- !insert_union_l, <- insert_union_singleton_l.
    + exists (Normal tt), (<[liveData := no_live_data]> {[liveData := summary]}).
      split; [set_solver|]. intros d' Hdom. repeat write_page.
      by rewrite <- !insert_union_l, <- insert_union_singleton_l.
    + exists (Throw TypeError), ∅.
      split; [set_solver|]. intros d' Hdom. repeat write_page.
      by rewrite (left_id_L ∅ (∪)).
  - unfold refreshData_catch.
    destruct (decide (liveData ∈ dom d)) as [Hlive|Hlive].
    + exists (Normal tt), {[liveData := no_live_data]}.
      split; [set_solver|]. intros d' Hdom.
      rewrite (refreshData_render_no_text _ _ _ Htext). write_page.
      by rewrite <- insert_union_singleton_l.
    + exists (Throw TypeError), ∅.
      split; [set_solver|]. intros d' Hdom.
      rewrite (refreshData_render_no_text _ _ _ Htext). write_page.
      by rewrite (left_id_L ∅ (∪)).
Qed.

(** So running them again on the page they left changes nothing. *)
Lemma refreshData_render_twice (data : value) (d : page) :
  let block := try_catch (refreshData_render data) refreshData_catch in
  block (block d).2 = block d.
Proof.
  simpl.
  destruct (refreshData_block_shape data d) as (c & written & Hsub & Hshape).
  rewrite (Hshape d) by done. simpl.
  rewrite Hshape by (rewrite dom_union_L; set_solver).
  by rewrite (assoc_L (∪)), (idemp_L (∪)).
Qed.

(** C10: answering a [refreshData] call and then answering one again with
    the same response leaves every element with the text the first answer
    gave it, and the call ends the same way; in particular for every
    SensorReading body. *)
Theorem refreshData_idempotent (d0 d1 d : page) (r : completion response) :
  answered r (refreshData d1).1 (answered r (refreshData d0).1 d).2
  = answered r (refreshData d0).1 d.
Proof.
  rewrite !refreshData_answered.
  destruct r as [res|err].
  - destruct (json res) as [data|err]; unfold settle.
    + pose proof (refreshData_render_twice data d) as Htwice. simpl in Htwice.
      destruct (try_catch (refreshData_render data) refreshData_catch d)
        as [c d'] eqn:Hfirst.
      simpl in *. by rewrite Htwice.
    + pose proof (set_textContent_twice liveData no_live_data d) as Htwice.
      unfold refreshData_catch.
      destruct (set_textContent liveData no_live_data d) as [c d'].
      simpl in *. by rewrite Htwice.
  - unfold settle.
    pose proof (set_textContent_twice liveData no_live_data d) as Htwice.
    unfold refreshData_catch.
    destruct (set_textContent liveData no_live_data d) as [c d'].
    simpl in *. by rewrite Htwice.
Qed.

(** ** The detection trigger *)

(** The synchronous part of a click on a page that has the status line:
    the busy message is written, the request is made and the call parks. *)
Lemma runAI_click_parks (d : page) :
  is_Some (d !! status) →
  ∃ k, runAI_click d = (AwaitFetch run_ai_url k, <[status := busy_message]> d)
       ∧ ∀ (r : completion response) (d' : page),
           answered r (AwaitFetch run_ai_url k) d' =
           match r with
           | Throw err => settle (runAI_catch err) d'
           | Normal res =>
               match json res with
               | Throw err => settle (runAI_catch err) d'
               | Normal data =>
                   settle (try_catch (runAI_report data) runAI_catch) d'
               end
           end.
Proof.
  intros Hstatus. unfold runAI_click.
  rewrite set_textContent_present by done.
  eexists. split; [reflexivity|].
  intros r d'. unfold answered. simpl.
  destruct r as [res|err]; simpl.
  - by destruct (json res).
  - unfold settle. by destruct (runAI_catch err d').
Qed.

Lemma runAI_between_awaits (d0 d1 d2 : page) (res : response) :
  is_Some (d0 !! status) →
  (resume_fetch (Normal res) (runAI_click d0).1 d1).2 = d1
  ∧ resume_json (resume_fetch (Normal res) (runAI_click d0).1 d1).1 d2
    = answered (Normal res) (runAI_click d0).1 d2.
Proof.
  intros Hstatus. unfold runAI_click.
  by rewrite set_textContent_present.
Qed.

Lemma runAI_catch_shows (err : exn) (d : page) :
  is_Some (d !! status) →
  settle (Number:=Number) (runAI_catch err) d
  = (Settled (Normal tt), <[status := cannot_connect]> d).
Proof.
  intros Hstatus. unfold settle, runAI_catch.
  by rewrite set_textContent_present.
Qed.

(** C3: once a click is answered, on a page that has the status line:
    a body [{status: "success", data: {helmet_violations: n}}] shows the
    completion message with [n] as the response gave it; a body whose
    [status] is anything else and whose [message] is the string [m] shows
    the error message with [m]; a rejected fetch shows exactly the
    cannot-connect message. *)
Theorem runAI_outcome (d0 d : page) :
  is_Some (d0 !! status) → is_Some (d !! status) →
  (∀ code props inner n,
      own_property props "status" = Some (VStr "success") →
      own_property props "data" = Some (VObj inner) →
      own_property inner "helmet_violations" = Some (VNum n) →
      answered (Normal (Response code (Some (VObj props)))) (runAI_click d0).1 d
      = (Settled (Normal tt),
         <[status := "✅ Detection Complete! Helmet Violations: "
                     +:+ NumberToString n]> d))
  ∧ (∀ code props m,
      own_property props "status" ≠ Some (VStr "success") →
      own_property props "message" = Some (VStr m) →
      answered (Normal (Response code (Some (VObj props)))) (runAI_click d0).1 d
      = (Settled (Normal tt), <[status := "❌ Error: " +:+ m]> d))
  ∧ (∀ err,
      answered (Throw err) (runAI_click d0).1 d
      = (Settled (Normal tt), <[status := "⚠️ Cannot connect to backend."]> d)).
Proof.
  intros Hstatus0 Hstatus.
  destruct (runAI_click_parks d0 Hstatus0) as (k & -> & Hanswered). simpl.
  split; [|split].
  - intros code props inner n Hsuccess Hdata Hcount.
    rewrite Hanswered. simpl.
    unfold settle, try_catch, runAI_report, js_bind, lift, get.
    rewrite Hsuccess. simpl. rewrite Hdata. simpl. rewrite Hcount. simpl.
    by rewrite set_textContent_present.
  - intros code props m Hother Hmessage.
    rewrite Hanswered. simpl.
    unfold settle, try_catch, runAI_report, js_bind, lift, interpolate, get.
    replace (strict_eq_string (default VUndefined (own_property props "status"))
                              "success") with false.
    + rewrite Hmessage. simpl. by rewrite set_textContent_present.
    + destruct (own_property props "status") as [[]|]; simpl; try done.
      destruct (String.eqb_spec s "success") as [->|]; done.
  - intros err. rewrite Hanswered. by apply runAI_catch_shows.
Qed.

(** C9: a body whose [status] is "success" and whose [data] is missing or
    [null] makes line 16 throw, and the status line shows the
    cannot-connect message although a response was received. *)
Theorem runAI_success_without_data
    (d0 d : page) (code : nat) (props : list (string * value)) :
  is_Some (d0 !! status) → is_Some (d !! status) →
  own_property props "status" = Some (VStr "success") →
  own_property props "data" = None ∨ own_property props "data" = Some VNull →
  answered (Normal (Response code (Some (VObj props)))) (runAI_click d0).1 d
  = (Settled (Normal tt), <[status := "⚠️ Cannot connect to backend."]> d).
Proof.
  intros Hstatus0 Hstatus Hsuccess Hdata.
  destruct (runAI_click_parks d0 Hstatus0) as (k & -> & Hanswered). simpl.
  rewrite Hanswered. simpl.
  unfold settle, try_catch, runAI_report, js_bind, lift, get.
  rewrite Hsuccess. simpl.
  destruct Hdata as [-> | ->]; simpl;
    unfold runAI_catch; by rewrite set_textContent_present.
Qed.

(** ** No statement adds or removes an element *)

Lemma set_textContent_keeps (id text : string) : keeps_elements (set_textContent id text).
Proof.
  intros d. unfold set_textContent. destruct (d !! id) eqn:Hid; [simpl|done].
  rewrite dom_insert_L. apply elem_of_dom_2 in Hid. set_solver.
Qed.

Lemma lift_keeps {A} (c : completion A) : keeps_elements (lift c).
Proof. done. Qed.

Lemma js_bind_keeps {A B} (m : js A) (f : A → js B) :
  keeps_elements m → (∀ a, keeps_elements (f a)) → keeps_elements (js_bind m f).
Proof.
  intros Hm Hf d. unfold js_bind. specialize (Hm d).
  destruct (m d) as [[a|e] d']; simpl in *; [|done].
  by rewrite Hf.
Qed.

Lemma try_catch_keeps {A} (body : js A) (handler : exn → js A) :
  keeps_elements body → (∀ e, keeps_elements (handler e)) →
  keeps_elements (try_catch body handler).
Proof.
  intros Hbody Hhandler d. unfold try_catch. specialize (Hbody d).
  destruct (body d) as [[a|e] d']; simpl in *; [done|].
  by rewrite Hhandler.
Qed.

Hint Resolve set_textContent_keeps lift_keeps js_bind_keeps try_catch_keeps : page.

Lemma runAI_catch_keeps (err : exn) : keeps_elements (runAI_catch err).
Proof. apply set_textContent_keeps. Qed.

Lemma runAI_report_keeps (data : value) : keeps_elements (runAI_report data).
Proof.
  unfold runAI_report. apply js_bind_keeps; [apply lift_keeps|]. intros data_status.
  destruct (strict_eq_string data_status "success"); auto 10 with page.
Qed.

Lemma refreshData_catch_keeps (err : exn) : keeps_elements (refreshData_catch err).
Proof. apply set_textContent_keeps. Qed.

Lemma refreshData_render_keeps (data : value) : keeps_elements (refreshData_render data).
Proof. unfold refreshData_render. auto 20 with page. Qed.

Lemma settle_keeps (m : js unit) (d : page) :
  keeps_elements m →
  is_settled (settle (Number:=Number) m d).1 ∧ dom (settle (Number:=Number) m d).2 = dom d.
Proof.
  intros Hm. unfold settle. specialize (Hm d). by destruct (m d).
Qed.

Hint Resolve runAI_catch_keeps runAI_report_keeps refreshData_catch_keeps
  refreshData_render_keeps : page.

Lemma refreshData_tame : tame_handler refreshData.
Proof.
  intros d. split; [|done]. simpl. intros [res|err] d1; simpl.
  - split; [|done]. intros [data|err] d2; apply settle_keeps; auto with page.
  - destruct (settle_keeps (refreshData_catch err) d1) as [Hsettled Hdom];
      [auto with page|].
    split; [|done]. by destruct (settle (refreshData_catch err) d1).1.
Qed.

Lemma runAI_click_tame : tame_handler runAI_click.
Proof.
  intros d. unfold runAI_click.
  pose proof (set_textContent_keeps status busy_message d) as Hbusy.
  destruct (set_textContent status busy_message d) as [[[]|e] d']; simpl in *;
    [|done].
  split; [|done]. intros [res|err] d1; simpl.
  - split; [|done]. intros [data|err] d2; apply settle_keeps; auto with page.
  - destruct (settle_keeps (runAI_catch err) d1) as [Hsettled Hdom];
      [auto with page|].
    split; [|done]. by destruct (settle (runAI_catch err) d1).1.
Qed.

(** The only request a click makes is the one to [/run_ai]. *)
Lemma runAI_click_request (now : N) (d : page) :
  filter (λ q, q.2 = get_data_url) (request_of now (runAI_click d).1) = [].
Proof.
  unfold runAI_click.
  by destruct (set_textContent status busy_message d) as [[[]|e] d'].
Qed.

Lemma past_fetch_request (now : N) (t : @task Number) : past_fetch t → request_of now t = [].
Proof. by destruct t. Qed.

Lemma is_settled_past_fetch (t : @task Number) : is_settled t → past_fetch t.
Proof. by destruct t. Qed.

Lemma past_fetch_tame (t : @task Number) : past_fetch t → tame t.
Proof. by destruct t. Qed.

(** ** The event loop *)

Lemma polls_more (w : @world Number) (d : page) (ivs : list (@timer Number))
    (ls : list (@handler Number)) (cs : list (@task Number)) (now : N)
    (more : list (N * string)) :
  polls (World d now ivs ls cs (requests w ++ more))
  = polls w ++ (filter (λ q, q.2 = get_data_url) more).*1.
Proof. unfold polls. simpl. by rewrite filter_app, fmap_app. Qed.

(** Calling [refreshData] from the event loop: one more parked call, one
    more request for data, and the page as it was. *)
Lemma invoke_refreshData (w : @world Number) :
  invoke w refreshData
  = World (document w) (clock w) (intervals w) (click_listeners w)
          (calls w ++ [(refreshData (document w)).1])
          (requests w ++ [(clock w, get_data_url)]).
Proof. reflexivity. Qed.

Lemma steady_invoke_refreshData (d0 : page) (w : @world Number) :
  dom (document w) = dom d0 → Forall tame (calls w) →
  dom (document (invoke w refreshData)) = dom d0
  ∧ Forall tame (calls (invoke w refreshData))
  ∧ polls (invoke w refreshData) = polls w ++ [clock w].
Proof.
  intros Hdom Htame. rewrite invoke_refreshData.
  split; [done|]. split.
  - cbn [calls]. apply Forall_app. split; [done|].
    apply Forall_singleton, refreshData_tame.
  - by rewrite polls_more.
Qed.

Lemma steady_invoke_runAI_click (d0 : page) (w : @world Number) :
  dom (document w) = dom d0 → Forall tame (calls w) →
  dom (document (invoke w runAI_click)) = dom d0
  ∧ Forall tame (calls (invoke w runAI_click))
  ∧ polls (invoke w runAI_click) = polls w
  ∧ clock (invoke w runAI_click) = clock w
  ∧ intervals (invoke w runAI_click) = intervals w
  ∧ click_listeners (invoke w runAI_click) = click_listeners w.
Proof.
  intros Hdom Htame. unfold invoke.
  pose proof (runAI_click_tame (document w)) as [Ht Hd].
  pose proof (runAI_click_request (clock w) (document w)) as Hreq.
  destruct (runAI_click (document w)) as [t d]. simpl in Ht, Hd, Hreq.
  cbn [document calls clock intervals click_listeners].
  split; [congruence|]. split.
  - apply Forall_app. split; [done|]. by apply Forall_singleton.
  - rewrite polls_more, Hreq. simpl. by rewrite (right_id_L [] (++)).
Qed.

Lemma steady_continue (d0 : page) (w : @world Number) (i : nat) (t : @task Number) (go_on : @task Number → handler) :
  dom (document w) = dom d0 → Forall tame (calls w) →
  calls w !! i = Some t →
  past_fetch (go_on t (document w)).1 →
  dom (go_on t (document w)).2 = dom (document w) →
  let w' := continue i go_on w in
  dom (document w') = dom d0
  ∧ Forall tame (calls w')
  ∧ polls w' = polls w
  ∧ clock w' = clock w
  ∧ intervals w' = intervals w
  ∧ click_listeners w' = click_listeners w.
Proof.
  intros Hdom Htame Hi Hpast Hkeeps. unfold continue. rewrite Hi.
  destruct (go_on t (document w)) as [t' d]. simpl in Hpast, Hkeeps.
  cbn [document calls clock intervals click_listeners].
  split; [congruence|]. split.
  - apply Forall_insert; [done|]. by apply past_fetch_tame.
  - rewrite polls_more, (past_fetch_request _ _ Hpast). simpl.
    by rewrite (right_id_L [] (++)).
Qed.

Lemma steady_start (d0 : page) : steady d0 (DOMContentLoaded d0).
Proof.
  unfold steady, DOMContentLoaded.
  set (w0 := World d0 0%N [] [] [] []).
  set (w1 := if decide (is_Some (d0 !! runBtn))
             then addEventListener_click runAI_click w0 else w0).
  assert (Hdoc : document w1 = d0) by (unfold w1; by case_decide).
  assert (Hcalls : calls w1 = []) by (unfold w1; by case_decide).
  assert (Hreqs : requests w1 = []) by (unfold w1; by case_decide).
  assert (Hclock : clock w1 = 0%N) by (unfold w1; by case_decide).
  assert (Hivs : intervals w1 = []) by (unfold w1; by case_decide).
  assert (Hls : click_listeners w1
                = if decide (is_Some (d0 !! runBtn)) then [runAI_click] else [])
    by (unfold w1; by case_decide).
  rewrite invoke_refreshData.
  cbn [setInterval document clock intervals click_listeners calls requests].
  rewrite Hdoc, Hcalls, Hreqs, Hclock, Hivs, Hls.
  split; [reflexivity|]. split.
  { apply Forall_singleton, refreshData_tame. }
  split; [reflexivity|].
  exists 0. split; [lia|]. split.
  - cbn [app]. do 2 f_equal.
  - unfold polls. cbn [requests app]. reflexivity.
Qed.

Lemma steady_tick (d0 : page) (w : @world Number) :
  steady d0 w → steady d0 (tick w) ∧ clock (tick w) = (clock w + 1)%N.
Proof.
  intros (Hdom & Htame & Hls & n & Hn & Hivs & Hpolls).
  split; [|reflexivity].
  unfold steady, tick. rewrite Hivs.
  cbn [foldl fmap list_fmap]. unfold fire, reschedule.
  cbn [due clock period callback].
  destruct (decide (5000 * N.of_nat (S n) = clock w + 1)%N) as [Hdue|Hnot].
  - set (w1 := World (document w) (clock w + 1)%N _ _ _ _).
    destruct (steady_invoke_refreshData d0 w1) as (Hdom1 & Htame1 & Hpolls1);
      [done..|].
    cbn [document clock intervals click_listeners calls requests].
    split; [done|]. split; [done|]. split; [done|].
    exists (S n). split; [lia|]. split.
    + do 2 f_equal. lia.
    + unfold polls in *. cbn [requests] in *. rewrite Hpolls1.
      change (requests w1) with (requests w). rewrite Hpolls.
      rewrite (seq_S (S n)), fmap_app. cbn [fmap list_fmap clock w1].
      do 2 f_equal. lia.
  - cbn [document clock intervals click_listeners calls requests].
    split; [done|]. split; [done|]. split; [done|].
    exists n. split; [lia|]. split; [reflexivity|]. exact Hpolls.
Qed.

Lemma steady_step (d0 : page) (w : @world Number) (e : event) :
  steady d0 w →
  steady d0 (step w e)
  ∧ clock (step w e) = match e with Tick => (clock w + 1)%N | _ => clock w end.
Proof.
  intros Hsteady. destruct e as [| |i r|i]; cbn [step].
  - by apply steady_tick.
  - destruct Hsteady as (Hdom & Htame & Hls & n & Hn & Hivs & Hpolls).
    rewrite Hls. case_decide; cbn [foldl].
    + destruct (steady_invoke_runAI_click d0 w Hdom Htame)
        as (Hdom' & Htame' & Hpolls' & Hclock' & Hivs' & Hls').
      split; [|done].
      split; [done|]. split; [done|]. split; [by rewrite Hls', Hls, decide_True|].
      exists n. by rewrite Hclock', Hivs', Hpolls'.
    + split; [|done].
      split; [done|]. split; [done|]. split; [by rewrite Hls, decide_False|].
      by exists n.
  - destruct (calls w !! i) as [[c|url k|res k]|] eqn:Hi; try done.
    destruct Hsteady as (Hdom & Htame & Hls & n & Hn & Hivs & Hpolls).
    pose proof (Forall_lookup_1 _ _ _ _ Htame Hi) as Hk. simpl in Hk.
    destruct (steady_continue d0 w i _ (resume_fetch r) Hdom Htame Hi)
      as (Hdom' & Htame' & Hpolls' & Hclock' & Hivs' & Hls');
      [apply Hk..|].
    split; [|done].
    split; [done|]. split; [done|]. split; [by rewrite Hls'|].
    exists n. by rewrite Hclock', Hivs', Hpolls'.
  - destruct (calls w !! i) as [[c|url k|res k]|] eqn:Hi; try done.
    destruct Hsteady as (Hdom & Htame & Hls & n & Hn & Hivs & Hpolls).
    pose proof (Forall_lookup_1 _ _ _ _ Htame Hi) as Hk. simpl in Hk.
    destruct (steady_continue d0 w i _ resume_json Hdom Htame Hi)
      as (Hdom' & Htame' & Hpolls' & Hclock' & Hivs' & Hls').
    { cbn [resume_json]. apply is_settled_past_fetch, Hk. }
    { cbn [resume_json]. apply Hk. }
    split; [|done].
    split; [done|]. split; [done|]. split; [by rewrite Hls'|].
    exists n. by rewrite Hclock', Hivs', Hpolls'.
Qed.

Lemma steady_run (d0 : page) (events : list event) (w : @world Number) :
  steady d0 w →
  steady d0 (run w events)
  ∧ clock (run w events) = (clock w + N.of_nat (ticks events))%N.
Proof.
  revert w. induction events as [|e events IH]; intros w Hsteady.
  - split; [done|]. simpl. lia.
  - destruct (steady_step d0 w e Hsteady) as [Hnext Hclock].
    destruct (IH _ Hnext) as [Hend Hclock'].
    split; [done|]. unfold run in *. cbn [foldl]. rewrite Hclock', Hclock.
    destruct e; simpl; lia.
Qed.

(** C4: [DOMContentLoaded] asks for data once, at time 0, before any tick;
    from then on, whatever happens (clicks, answers of any kind in any
    order, rejected promises), data has been asked for exactly at the
    multiples of 5000 ms reached so far, so [1 + T / 5000] times after [T]
    milliseconds, which is at least [T / 5000]. *)
Theorem polling_cadence (d0 : page) (events : list event) :
  polls (DOMContentLoaded d0) = [0%N]
  ∧ let w := run (DOMContentLoaded d0) events in
    clock w = N.of_nat (ticks events)
    ∧ polls w = (λ i, 5000 * N.of_nat i)%N <$> seq 0 (S (N.to_nat (clock w / 5000)))
    ∧ N.of_nat (length (polls w)) = (1 + clock w / 5000)%N
    ∧ (clock w / 5000 ≤ N.of_nat (length (polls w)))%N.
Proof.
  split; [unfold DOMContentLoaded; by case_decide|]. intros w.
  destruct (steady_run d0 events _ (steady_start d0)) as [Hsteady Hclock].
  fold w in Hsteady, Hclock.
  destruct Hsteady as (_ & _ & _ & n & Hn & _ & Hpolls).
  assert (Hdiv : N.to_nat (clock w / 5000) = n).
  { rewrite <- (N.div_unique (clock w) 5000 (N.of_nat n)
                  (clock w - 5000 * N.of_nat n)) by lia.
    apply Nat2N.id. }
  rewrite Hdiv, Hpolls, length_fmap, length_seq.
  split; [|split; [reflexivity|lia]].
  rewrite Hclock. unfold DOMContentLoaded. by case_decide.
Qed.


(** ** The click, seen from the event loop *)



(** ** Pages that lack an element *)

(** Without the button no listener is registered and a click does
    nothing. *)
Lemma no_button_no_listener (d0 : page) (events : list event) :
  d0 !! runBtn = None →
  let w := run (DOMContentLoaded d0) events in
  click_listeners w = [] ∧ step w Click = w.
Proof.
  intros Hbtn w.
  destruct (steady_run d0 events _ (steady_start d0)) as [Hsteady _].
  fold w in Hsteady. destruct Hsteady as (_ & _ & Hls & _).
  rewrite decide_False in Hls by (rewrite Hbtn; by intros [? [=]]).
  split; [done|]. cbn [step]. by rewrite Hls.
Qed.

(** Without the status line, line 11 throws: the click handler's promise
    is rejected before any request is made. *)
Lemma runAI_click_without_status (d : page) :
  d !! status = None → runAI_click d = (Settled (Throw TypeError), d).
Proof.
  intros Hnone. unfold runAI_click. by rewrite set_textContent_absent.
Qed.

(** Without the liveData element the [catch] block throws in its turn:
    every [refreshData] call ends with a rejected promise, whatever the
    answer. *)
Lemma refreshData_without_liveData (d0 d : page) (r : completion response) :
  d !! liveData = None →
  answered r (refreshData d0).1 d = (Settled (Throw TypeError), d).
Proof.
  intros Hnone. rewrite refreshData_answered.
  assert (Hcatch : ∀ err, settle (Number:=Number) (refreshData_catch err) d
                          = (Settled (Throw TypeError), d)).
  { intros err. unfold settle, refreshData_catch.
    by rewrite set_textContent_absent. }
  destruct r as [res|err]; [|apply Hcatch].
  destruct (json res) as [data|err]; [|apply Hcatch].
  unfold settle, try_catch.
  destruct (liveData_text data) as [summary|err] eqn:Htext.
  - unfold refreshData_render, js_bind, lift. rewrite Htext.
    rewrite set_textContent_absent by done.
    unfold refreshData_catch. by rewrite set_textContent_absent.
  - rewrite (refreshData_render_no_text _ _ _ Htext).
    unfold refreshData_catch. by rewrite set_textContent_absent.
Qed.

End Properties.

(** * The properties on the example page *)

Lemma refreshData_no_reading_witness :
  answered (Throw TypeError) (refreshData dashboard_page).1 dashboard_page
  = (Settled (Normal tt),
     <[liveData := "No live data available."]> dashboard_page).
Proof.
  apply (refreshData_no_reading dashboard_page dashboard_page (Throw TypeError)).
  - vm_compute. eexists. reflexivity.
  - reflexivity.
Defined.

(** C1 as the specification words it fails: a response with status 500
    and body [{}] is rendered like any reading, with "undefined" for the
    fields it lacks. *)
Lemma refreshData_error_500_rendered :
  http_status error_500 ≠ 200
  ∧ answered (Normal error_500) (refreshData dashboard_page).1 dashboard_page
    = (Settled (Normal tt),
       <[helmetSpan := "undefined"]>
         (<[gasSpan := "undefined ppm"]>
            (<[tempSpan := "undefined °C"]>
               (<[liveData := "🌡️ Temp: undefined °C | 🧪 Gas: undefined ppm | ⛑️ Helmet Violations: undefined"]>
                  dashboard_page))))
  ∧ (answered (Normal error_500) (refreshData dashboard_page).1 dashboard_page).2
      !! liveData
    ≠ Some "No live data available.".
Proof.
  split; [discriminate|]. split; [by vm_compute|]. vm_compute. discriminate.
Defined.

(** C2 fails on pages that lack an element other than the button: the
    click handler's promise is rejected on a page without the status line,
    and every [refreshData] call's on a page without liveData. *)
Lemma missing_element_rejects :
  runAI_click page_without_status = (Settled (Throw TypeError), page_without_status)
  ∧ answered (Throw TypeError) (refreshData page_without_liveData).1
      page_without_liveData
    = (Settled (Throw TypeError), page_without_liveData)
  ∧ answered (Normal (Response 200 (Some reading_36_2)))
      (refreshData page_without_liveData).1 page_without_liveData
    = (Settled (Throw TypeError), page_without_liveData).
Proof.
  split; [|split].
  - by apply runAI_click_without_status.
  - by apply refreshData_without_liveData.
  - by apply refreshData_without_liveData.
Qed.

(** On a page without the gas element a good reading ends in the [catch]
    block after the temperature has been written. *)
Lemma refreshData_without_gas :
  answered (Normal (Response 200 (Some reading_36_2)))
    (refreshData page_without_gas).1 page_without_gas
  = (Settled (Normal tt),
     <[liveData := "No live data available."]>
       (<[tempSpan := "36.2 °C"]> page_without_gas)).
Proof. by vm_compute. Qed.

Lemma refreshData_renders_reading_witness :
  ∃ d' : page,
    answered (Normal (Response 200 (Some reading_36_2)))
      (refreshData dashboard_page).1 dashboard_page
    = (Settled (Normal tt), d')
    ∧ d' !! tempSpan = Some "36.2 °C"
    ∧ d' !! gasSpan = Some "120 ppm"
    ∧ d' !! helmetSpan = Some "3"
    ∧ d' !! liveData
      = Some "🌡️ Temp: 36.2 °C | 🧪 Gas: 120 ppm | ⛑️ Helmet Violations: 3"
    ∧ ∀ id, id ∉ [liveData; tempSpan; gasSpan; helmetSpan] →
            d' !! id = dashboard_page !! id.
Proof.
  assert (Hthere : ∀ id, id ∈ [liveData; tempSpan; gasSpan; helmetSpan] →
                         is_Some (dashboard_page !! id)).
  { intros id Hid. repeat (apply elem_of_cons in Hid as [->|Hid]);
      [vm_compute; eexists; reflexivity ..|].
    by apply elem_of_nil in Hid. }
  exact (refreshData_renders_reading dashboard_page dashboard_page 200
           [("temperature", VNum (Literal "36.2"));
            ("gas_level", VNum (Literal "120"));
            ("helmet_violations", VNum (Literal "3"))]
           (Literal "36.2") (Literal "120") (Literal "3")
           (Hthere liveData ltac:(set_solver))
           (Hthere tempSpan ltac:(set_solver))
           (Hthere gasSpan ltac:(set_solver))
           (Hthere helmetSpan ltac:(set_solver))
           eq_refl eq_refl eq_refl).
Defined.



Lemma runAI_outcome_witness :
  let shown := (runAI_click dashboard_page).2 in
  answered (Normal (Response 200 (Some detection_success)))
    (runAI_click dashboard_page).1 shown
  = (Settled (Normal tt),
     <[status := "✅ Detection Complete! Helmet Violations: 3"]> shown)
  ∧ answered (Normal (Response 200 (Some detection_error)))
      (runAI_click dashboard_page).1 shown
    = (Settled (Normal tt), <[status := "❌ Error: camera offline"]> shown)
  ∧ answered (Throw TypeError) (runAI_click (number:=literal_number) dashboard_page).1 shown
    = (Settled (Normal tt), <[status := "⚠️ Cannot connect to backend."]> shown).
Proof.
  intros shown.
  assert (H0 : is_Some (dashboard_page !! status))
    by (vm_compute; eexists; reflexivity).
  assert (H1 : is_Some (shown !! status))
    by (vm_compute; eexists; reflexivity).
  destruct (runAI_outcome dashboard_page shown H0 H1) as (Hsuccess & Herror & Hthrown).
  split; [|split].
  - exact (Hsuccess 200
             [("status", VStr "success");
              ("data", VObj [("helmet_violations", VNum (Literal "3"))])]
             [("helmet_violations", VNum (Literal "3"))] (Literal "3")
             eq_refl eq_refl eq_refl).
  - refine (Herror 200 [("status", VStr "error"); ("message", VStr "camera offline")]
              "camera offline" _ eq_refl).
    discriminate.
  - apply Hthrown.
Defined.

Lemma runAI_success_without_data_witness :
  answered (Normal (Response 200 (Some success_without_data)))
    (runAI_click dashboard_page).1 (runAI_click dashboard_page).2
  = (Settled (Normal tt),
     <[status := "⚠️ Cannot connect to backend."]> (runAI_click dashboard_page).2).
Proof.
  apply (runAI_success_without_data dashboard_page _ 200
           [("status", VStr "success")]).
  - vm_compute. eexists. reflexivity.
  - vm_compute. eexists. reflexivity.
  - reflexivity.
  - left. reflexivity.
Defined.


(** Ten seconds of polling with a click and a failed answer in between:
    data is asked for at 0, 5000 and 10000 ms. *)
Lemma polling_ten_seconds :
  polls (run (DOMContentLoaded (number:=literal_number) dashboard_page)
           (repeat Tick (3 * 1000) ++ [Click; FetchSettled 0 (Throw TypeError)]
            ++ repeat Tick (7 * 1000)))
  = [0; 5000; 10000]%N.
Proof. by vm_compute. Qed.

(** A session on the dashboard page: the first poll is answered with a
    reading while a click is waiting for its own answer, which then comes
    as an error. *)
Lemma a_session :
  let w1 := run (DOMContentLoaded (number:=literal_number) dashboard_page)
              [Tick; FetchSettled 0 (Normal (Response 200 (Some reading_36_2)));
               Click; BodyRead 0] in
  let w2 := run w1 [Tick; FetchSettled 1 (Normal (Response 200 (Some detection_error)));
                    BodyRead 1] in
  document w1 !! status = Some "🚀 Running AI Detection..."
  ∧ document w1 !! liveData
    = Some "🌡️ Temp: 36.2 °C | 🧪 Gas: 120 ppm | ⛑️ Helmet Violations: 3"
  ∧ document w1 !! tempSpan = Some "36.2 °C"
  ∧ requests w1 = [(0, get_data_url); (1, run_ai_url)]%N
  ∧ document w2 !! status = Some "❌ Error: camera offline"
  ∧ document w2 !! helmetSpan = Some "3"
  ∧ clock w2 = 2%N.
Proof. by vm_compute. Qed.

(** * More properties of main.js *)

(** One write to an element that is there. *)
Ltac write_there :=
  rewrite set_textContent_present
    by first [ done
             | apply elem_of_dom;
               unfold liveData, tempSpan, gasSpan, helmetSpan, status in *;
               set_solver ];
  simpl.

Section MoreOfMain.

Context {Number : Type} {number : JSNumber Number}.

(** ** Bodies of an unexpected shape *)

(** Where a property read gives [undefined]: on every value that is
    neither [null] nor [undefined] nor an object with that property. *)
Lemma get_undefined (v : @value Number) (key : string) :
  get v key = Normal VUndefined ↔
  match v with
  | VUndefined | VNull => False
  | VObj props =>
      own_property props key = None ∨ own_property props key = Some VUndefined
  | _ => True
  end.
Proof.
  destruct v as [| |b|n|s|items|props]; simpl; try naive_solver.
  destruct (own_property props key) as [v|]; simpl; naive_solver.
Qed.

Lemma interpolate_undefined (data : @value Number) (key : string) :
  get data key = Normal VUndefined → interpolate data key = Normal "undefined".
Proof. intros Hget. unfold interpolate. by rewrite Hget. Qed.

(** X1: neither handler ever looks at the HTTP status: two responses with
    the same body leave the page and the call in the same state, whatever
    their status codes. *)
Theorem status_never_inspected
    (d0 d : page) (code code' : nat) (body : option value) :
  answered (Normal (Response code body)) (refreshData d0).1 d
  = answered (Normal (Response code' body)) (refreshData d0).1 d
  ∧ answered (Normal (Response code body)) (runAI_click d0).1 d
    = answered (Normal (Response code' body)) (runAI_click d0).1 d.
Proof.
  split.
  - by rewrite !refreshData_answered.
  - destruct (d0 !! status) as [old|] eqn:Hstatus.
    + destruct (runAI_click_parks d0) as (k & -> & Hanswered); [by eexists|].
      simpl. by rewrite !Hanswered.
    + by rewrite runAI_click_without_status.
Qed.

(** X2: a body from which the three fields cannot be read (a JSON number,
    string, boolean or array, or an object without them) is no failure for
    the poller: on a page with the four display elements every field is
    shown as "undefined", with its unit. *)
Theorem refreshData_missing_fields (d0 d : page) (code : nat) (data : value) :
  is_Some (d !! liveData) → is_Some (d !! tempSpan) →
  is_Some (d !! gasSpan) → is_Some (d !! helmetSpan) →
  get data "temperature" = Normal VUndefined →
  get data "gas_level" = Normal VUndefined →
  get data "helmet_violations" = Normal VUndefined →
  answered (Normal (Response code (Some data))) (refreshData d0).1 d
  = (Settled (Normal tt),
     <[helmetSpan := "undefined"]>
       (<[gasSpan := "undefined ppm"]>
          (<[tempSpan := "undefined °C"]>
             (<[liveData := "🌡️ Temp: undefined °C | 🧪 Gas: undefined ppm | ⛑️ Helmet Violations: undefined"]>
                d)))).
Proof.
  intros Hlive Htemp Hgas Hhelmet Ht Hg Hh.
  apply elem_of_dom in Hlive, Htemp, Hgas, Hhelmet.
  rewrite refreshData_answered. simpl.
  unfold settle, try_catch, refreshData_render, js_bind, lift, liveData_text.
  rewrite !interpolate_undefined by done. simpl.
  by repeat write_there.
Qed.

(** X3: a detection answer without the fields the handler reads still gets
    a message, on a page with the status line: with a [status] other than
    "success" and no [message] (so for any JSON number, string, boolean or
    array) the error message carries "undefined"; with [status] "success"
    and a [data] that has no [helmet_violations] the completion message
    does. *)
Theorem runAI_missing_fields (d0 d : page) (code : nat) (data : value) :
  is_Some (d0 !! status) → is_Some (d !! status) →
  (∀ data_status,
      get data "status" = Normal data_status →
      strict_eq_string data_status "success" = false →
      get data "message" = Normal VUndefined →
      answered (Normal (Response code (Some data))) (runAI_click d0).1 d
      = (Settled (Normal tt), <[status := "❌ Error: undefined"]> d))
  ∧ (∀ data_data,
      get data "status" = Normal (VStr "success") →
      get data "data" = Normal data_data →
      get data_data "helmet_violations" = Normal VUndefined →
      answered (Normal (Response code (Some data))) (runAI_click d0).1 d
      = (Settled (Normal tt),
         <[status := "✅ Detection Complete! Helmet Violations: undefined"]> d)).
Proof.
  intros Hstatus0 Hstatus.
  destruct (runAI_click_parks d0 Hstatus0) as (k & -> & Hanswered). simpl.
  split.
  - intros data_status Hget Hother Hmessage. rewrite Hanswered. simpl.
    unfold settle, try_catch, runAI_report, js_bind, lift.
    rewrite Hget. simpl. rewrite Hother.
    rewrite interpolate_undefined by done. simpl.
    by rewrite set_textContent_present.
  - intros data_data Hget Hdata Hcount. rewrite Hanswered. simpl.
    unfold settle, try_catch, runAI_report, js_bind, lift.
    rewrite Hget. simpl. rewrite Hdata. simpl. rewrite Hcount. simpl.
    by rewrite set_textContent_present.
Qed.

(** X4: a response whose body is not JSON, or is the JSON [null], is
    reported on the status line as a failure to connect, whatever its
    status code. *)
Theorem runAI_unreadable_body (d0 d : page) (res : response) :
  is_Some (d0 !! status) → is_Some (d !! status) →
  parsed_body res = None ∨ parsed_body res = Some VNull →
  answered (Normal res) (runAI_click d0).1 d
  = (Settled (Normal tt), <[status := "⚠️ Cannot connect to backend."]> d).
Proof.
  intros Hstatus0 Hstatus Hbody.
  destruct (runAI_click_parks d0 Hstatus0) as (k & -> & Hanswered). simpl.
  rewrite Hanswered. unfold json.
  destruct Hbody as [-> | ->].
  - by apply runAI_catch_shows.
  - unfold settle, try_catch, runAI_report, js_bind, lift. simpl.
    unfold runAI_catch. by rewrite set_textContent_present.
Qed.

End MoreOfMain.

Section MoreOfTheLoop.

Context {Number : Type} {number : JSNumber Number}.

(** ** Which elements a block may write *)

Lemma set_textContent_writes_only (ids : gset string) (id text : string) :
  id ∈ ids → writes_only ids (set_textContent id text).
Proof.
  intros Hid d id' Hid'. unfold set_textContent.
  destruct (d !! id); [simpl|done].
  rewrite lookup_insert_ne; [done|]. intros ->. done.
Qed.

Lemma lift_writes_only {A} (ids : gset string) (c : completion A) :
  writes_only ids (lift c).
Proof. done. Qed.

Lemma js_bind_writes_only {A B} (ids : gset string) (m : js A) (f : A → js B) :
  writes_only ids m → (∀ a, writes_only ids (f a)) → writes_only ids (js_bind m f).
Proof.
  intros Hm Hf d id Hid. unfold js_bind. specialize (Hm d id Hid).
  destruct (m d) as [[a|e] d']; simpl in *; [|done].
  by rewrite Hf.
Qed.

Lemma try_catch_writes_only {A} (ids : gset string) (body : js A) (handler : exn → js A) :
  writes_only ids body → (∀ e, writes_only ids (handler e)) →
  writes_only ids (try_catch body handler).
Proof.
  intros Hbody Hhandler d id Hid. unfold try_catch. specialize (Hbody d id Hid).
  destruct (body d) as [[a|e] d']; simpl in *; [done|].
  by rewrite Hhandler.
Qed.

Lemma writes_only_more {A} (ids ids' : gset string) (m : js A) :
  ids ⊆ ids' → writes_only ids m → writes_only ids' m.
Proof. intros Hsub Hm d id Hid. apply Hm. set_solver. Qed.

Lemma refreshData_catch_writes (err : exn) :
  writes_only poll_elements (refreshData_catch err).
Proof.
  apply set_textContent_writes_only. unfold poll_elements. set_solver.
Qed.

Lemma refreshData_render_writes (data : value) :
  writes_only poll_elements (refreshData_render data).
Proof.
  unfold refreshData_render.
  repeat first
    [ apply js_bind_writes_only; [|intros ?]
    | apply lift_writes_only
    | apply set_textContent_writes_only; unfold poll_elements; set_solver ].
Qed.

Lemma runAI_catch_writes (err : exn) : writes_only {[status]} (runAI_catch err).
Proof. apply set_textContent_writes_only. set_solver. Qed.

Lemma runAI_report_writes (data : value) : writes_only {[status]} (runAI_report data).
Proof.
  unfold runAI_report. apply js_bind_writes_only; [apply lift_writes_only|].
  intros data_status. destruct (strict_eq_string data_status "success");
    repeat first
      [ apply js_bind_writes_only; [|intros ?]
      | apply lift_writes_only
      | apply set_textContent_writes_only; set_solver ].
Qed.

Lemma settle_writes_only (ids : gset string) (m : js unit) (d : page) :
  writes_only ids m →
  is_settled (settle (Number:=Number) m d).1
  ∧ ∀ id, id ∉ ids → (settle (Number:=Number) m d).2 !! id = d !! id.
Proof.
  intros Hm. unfold settle. specialize (Hm d). by destruct (m d).
Qed.

Lemma settle_frame (ids : gset string) (m : js unit) (d : page) (id : string) :
  writes_only ids m → id ∉ ids →
  (settle (Number:=Number) m d).2 !! id = d !! id.
Proof. intros Hm Hid. by apply (settle_writes_only ids m d Hm). Qed.

(** Answering a poll writes nothing but the poller's four elements. *)
Lemma refreshData_answered_frame (d0 d : page) (r : completion response) (id : string) :
  id ∉ poll_elements → (answered r (refreshData d0).1 d).2 !! id = d !! id.
Proof.
  intros Hid. rewrite refreshData_answered.
  destruct r as [res|err]; [destruct (json res) as [data|err]|];
    apply (settle_frame poll_elements);
    auto using refreshData_catch_writes, refreshData_render_writes,
      try_catch_writes_only.
Qed.

(** A click, and answering it, write nothing but the status line. *)
Lemma runAI_click_frame (d : page) (id : string) :
  id ≠ status → (runAI_click d).2 !! id = d !! id.
Proof.
  intros Hid. unfold runAI_click.
  pose proof (set_textContent_writes_only {[status]} status busy_message
                ltac:(set_solver) d id ltac:(set_solver)) as Hbusy.
  by destruct (set_textContent status busy_message d) as [[[]|e] d'].
Qed.

Lemma runAI_answered_frame (d0 d : page) (r : completion response) (id : string) :
  id ≠ status → (answered r (runAI_click d0).1 d).2 !! id = d !! id.
Proof.
  intros Hid.
  destruct (d0 !! status) as [old|] eqn:Hstatus.
  - destruct (runAI_click_parks d0) as (k & -> & Hanswered); [by eexists|].
    simpl. rewrite Hanswered.
    destruct r as [res|err]; [destruct (json res) as [data|err]|];
      apply (settle_frame {[status]});
      auto using runAI_catch_writes, runAI_report_writes, try_catch_writes_only;
      set_solver.
  - by rewrite runAI_click_without_status.
Qed.

(** X5: the two features keep out of each other's way: a poll, however it
    is answered, leaves every element but liveData, temp, gas and helmet as
    it was (the status line in particular), and a click, at the click and
    at its answer, leaves every element but the status line as it was. *)
Theorem features_do_not_interfere (d0 d : page) (r : completion response) :
  (∀ id, id ∉ poll_elements →
         (answered r (refreshData d0).1 d).2 !! id = d !! id)
  ∧ (∀ id, id ≠ status →
           (runAI_click d).2 !! id = d !! id
           ∧ (answered r (runAI_click d0).1 d).2 !! id = d !! id).
Proof.
  split.
  - intros id Hid. by apply refreshData_answered_frame.
  - intros id Hid. split.
    + by apply runAI_click_frame.
    + by apply runAI_answered_frame.
Qed.

(** ** The event loop, turn by turn *)

Lemma poll_elements_script : poll_elements ⊆ script_elements.
Proof. unfold script_elements. set_solver. Qed.

Lemma status_script : ({[status]} : gset string) ⊆ script_elements.
Proof. unfold script_elements. set_solver. Qed.

Lemma settle_confined (ids : gset string) (m : js unit) (d : page) :
  ids ⊆ script_elements → writes_only ids m →
  confined_past_fetch script_elements (settle (Number:=Number) m d).1
  ∧ ∀ id, id ∉ script_elements → (settle (Number:=Number) m d).2 !! id = d !! id.
Proof.
  intros Hsub Hm.
  destruct (settle_writes_only script_elements m d) as [Hsettled Hframe].
  { by eapply writes_only_more. }
  split; [|done]. by destruct (settle m d).1.
Qed.

Lemma refreshData_confined (d : page) :
  confined script_elements (refreshData d).1 ∧ (refreshData d).2 = d.
Proof.
  split; [|done]. simpl. intros [res|err] d1; simpl.
  - split; [|done]. intros [data|err] d2;
      apply settle_writes_only; eapply writes_only_more;
      eauto using poll_elements_script, refreshData_catch_writes,
        refreshData_render_writes, try_catch_writes_only.
  - apply (settle_confined poll_elements);
      auto using poll_elements_script, refreshData_catch_writes.
Qed.

Lemma runAI_click_confined (d : page) :
  confined script_elements (runAI_click d).1
  ∧ ∀ id, id ∉ script_elements → (runAI_click d).2 !! id = d !! id.
Proof.
  split.
  2:{ intros id Hid. apply runAI_click_frame. intros ->.
      apply Hid, status_script. set_solver. }
  unfold runAI_click.
  destruct (set_textContent status busy_message d) as [[[]|e] d']; simpl; [|done].
  intros [res|err] d1; simpl.
  - split; [|done]. intros [data|err] d2;
      apply settle_writes_only; eapply writes_only_more;
      eauto using status_script, runAI_catch_writes, runAI_report_writes,
        try_catch_writes_only.
  - apply (settle_confined {[status]});
      auto using status_script, runAI_catch_writes.
Qed.

Lemma confined_past_fetch_request (ids : gset string) (now : N) (t : @task Number) :
  confined_past_fetch ids t → request_of now t = [].
Proof. by destruct t. Qed.

Lemma confined_past_fetch_confined (ids : gset string) (t : @task Number) :
  confined_past_fetch ids t → confined ids t.
Proof. by destruct t. Qed.

Lemma is_settled_confined (ids : gset string) (t : @task Number) :
  is_settled t → confined_past_fetch ids t.
Proof. by destruct t. Qed.

(** What a tick does in a steady loop: nothing but, when the interval is
    due, one more call of [refreshData] and its request. *)
Lemma tick_steady (d0 : page) (w : @world Number) :
  steady d0 w →
  ∃ new : list task,
    (new = [] ∨ new = [(refreshData (document w)).1])
    ∧ document (tick w) = document w
    ∧ calls (tick w) = calls w ++ new
    ∧ requests (tick w) = requests w ++ (new ≫= request_of (clock w + 1)%N)
    ∧ click_listeners (tick w) = click_listeners w.
Proof.
  intros (_ & _ & _ & n & _ & Hivs & _).
  unfold tick. rewrite Hivs. cbn [foldl]. unfold fire. cbn [due clock callback].
  destruct (decide (5000 * N.of_nat (S n) = clock w + 1)%N) as [Hdue|Hnot].
  - exists [(refreshData (document w)).1]. rewrite invoke_refreshData.
    cbn [document calls requests clock click_listeners].
    split; [by right|]. repeat split; reflexivity.
  - exists []. cbn [document calls requests click_listeners mbind list_bind].
    split; [by left|]. by rewrite !(right_id_L [] (++)).
Qed.

(** What a click does: nothing without the button; with it, one more call
    of the listener. *)
Lemma click_steady (d0 : page) (w : @world Number) :
  steady d0 w →
  step w Click
  = if decide (is_Some (d0 !! runBtn)) then invoke w runAI_click else w.
Proof.
  intros (_ & _ & Hls & _). cbn [step]. rewrite Hls.
  by case_decide.
Qed.

(** X6: whatever happens in the event loop, every element other than the
    status line, liveData, temp, gas and helmet (the button, say) keeps the
    text it had when the page loaded. *)
Theorem untouched_elements (d0 : page) (events : list event) (id : string) :
  id ∉ script_elements →
  document (run (DOMContentLoaded d0) events) !! id = d0 !! id.
Proof.
  intros Hid.
  assert (Hstep : ∀ (w : @world Number) e,
             steady d0 w → Forall (confined script_elements) (calls w) →
             Forall (confined script_elements) (calls (step w e))
             ∧ document (step w e) !! id = document w !! id).
  { intros w e Hsteady Hconfined. destruct e as [| |i r|i].
    - cbn [step]. destruct (tick_steady d0 w Hsteady)
        as (new & Hnew & -> & -> & _).
      split; [|done]. apply Forall_app. split; [done|].
      destruct Hnew as [-> | ->]; [done|].
      apply Forall_singleton, refreshData_confined.
    - rewrite (click_steady d0 w Hsteady). case_decide; [|done].
      unfold invoke.
      destruct (runAI_click_confined (document w)) as [Ht Hd].
      destruct (runAI_click (document w)) as [t d]. simpl in *.
      split; [|by apply Hd]. apply Forall_app. split; [done|].
      by apply Forall_singleton.
    - cbn [step].
      destruct (calls w !! i) as [[c|url k|res k]|] eqn:Hi; try done.
      pose proof (Forall_lookup_1 _ _ _ _ Hconfined Hi) as Hk. simpl in Hk.
      unfold continue. rewrite Hi. cbn [resume_fetch].
      specialize (Hk r (document w)).
      destruct (k r (document w)) as [t d]. simpl in *.
      destruct Hk as [Htask Hframe].
      split; [|by apply Hframe]. apply Forall_insert; [done|].
      by apply confined_past_fetch_confined.
    - cbn [step].
      destruct (calls w !! i) as [[c|url k|res k]|] eqn:Hi; try done.
      pose proof (Forall_lookup_1 _ _ _ _ Hconfined Hi) as Hk. simpl in Hk.
      unfold continue. rewrite Hi. cbn [resume_json].
      specialize (Hk (json res) (document w)).
      destruct (k (json res) (document w)) as [t d]. simpl in *.
      destruct Hk as [Htask Hframe].
      split; [|by apply Hframe]. apply Forall_insert; [done|].
      by apply confined_past_fetch_confined, is_settled_confined. }
  assert (Hrun : ∀ events (w : @world Number),
             steady d0 w → Forall (confined script_elements) (calls w) →
             document (run w events) !! id = document w !! id).
  { clear events. induction events as [|e events IH]; intros w Hsteady Hconfined;
      [done|].
    destruct (Hstep w e Hsteady Hconfined) as [Hconfined' Hdoc].
    destruct (steady_step d0 w e Hsteady) as [Hsteady' _].
    unfold run in *. cbn [foldl]. by rewrite IH. }
  rewrite Hrun.
  - unfold DOMContentLoaded. by case_decide.
  - apply steady_start.
  - unfold DOMContentLoaded.
    case_decide; apply Forall_singleton, (refreshData_confined d0).
Qed.

Lemma detections_more (w : @world Number) (d : page) (ivs : list (@timer Number))
    (ls : list (@handler Number)) (cs : list (@task Number)) (now : N)
    (more : list (N * string)) :
  detections (World d now ivs ls cs (requests w ++ more))
  = detections w ++ (filter (λ q, q.2 = run_ai_url) more).*1.
Proof. unfold detections. simpl. by rewrite filter_app, fmap_app. Qed.

Lemma detections_step (d0 : page) (w : @world Number) (e : event) :
  steady d0 w →
  detections (step w e)
  = detections w
    ++ match e with
       | Click =>
           if decide (is_Some (d0 !! runBtn) ∧ is_Some (d0 !! status))
           then [clock w] else []
       | _ => []
       end.
Proof.
  intros Hsteady. destruct e as [| |i r|i].
  - cbn [step]. destruct (tick_steady d0 w Hsteady)
      as (new & Hnew & _ & _ & Hreq & _).
    unfold detections. rewrite Hreq, filter_app, fmap_app. f_equal.
    by destruct Hnew as [-> | ->].
  - rewrite (click_steady d0 w Hsteady).
    destruct Hsteady as (Hdom & _).
    destruct (decide (is_Some (d0 !! runBtn))) as [Hbtn|Hbtn].
    + unfold invoke.
      destruct (decide (is_Some (d0 !! status))) as [Hstatus|Hstatus].
      * destruct (runAI_click_parks (document w)) as (k & -> & _).
        { apply elem_of_dom. rewrite Hdom. by apply elem_of_dom. }
        rewrite detections_more, decide_True by done. reflexivity.
      * rewrite runAI_click_without_status.
        2:{ apply not_elem_of_dom. rewrite Hdom. by apply not_elem_of_dom,
              eq_None_not_Some. }
        rewrite detections_more, decide_False by tauto.
        reflexivity.
    + rewrite decide_False by tauto. by rewrite (right_id_L [] (++)).
  - rewrite (right_id_L [] (++)). cbn [step].
    destruct (calls w !! i) as [[c|url k|res k]|] eqn:Hi; try done.
    destruct Hsteady as (_ & Htame & _).
    pose proof (Forall_lookup_1 _ _ _ _ Htame Hi) as Hk. simpl in Hk.
    unfold continue. rewrite Hi. cbn [resume_fetch].
    specialize (Hk r (document w)).
    destruct (k r (document w)) as [t d]. simpl in Hk.
    rewrite detections_more, (past_fetch_request _ _ (proj1 Hk)). simpl.
    by rewrite (right_id_L [] (++)).
  - rewrite (right_id_L [] (++)). cbn [step].
    destruct (calls w !! i) as [[c|url k|res k]|] eqn:Hi; try done.
    destruct Hsteady as (_ & Htame & _).
    pose proof (Forall_lookup_1 _ _ _ _ Htame Hi) as Hk. simpl in Hk.
    unfold continue. rewrite Hi. cbn [resume_json].
    specialize (Hk (json res) (document w)).
    destruct (k (json res) (document w)) as [t d]. simpl in Hk.
    rewrite detections_more,
      (past_fetch_request _ _ (is_settled_past_fetch _ (proj1 Hk))). simpl.
    by rewrite (right_id_L [] (++)).
Qed.

Lemma detections_run (d0 : page) (events : list event) (w : @world Number) :
  steady d0 w →
  length (detections (run w events))
  = length (detections w)
    + (if decide (is_Some (d0 !! runBtn) ∧ is_Some (d0 !! status))
       then clicks events else 0).
Proof.
  revert w. induction events as [|e events IH]; intros w Hsteady.
  - simpl. by case_decide.
  - destruct (steady_step d0 w e Hsteady) as [Hnext _].
    unfold run in *. cbn [foldl]. rewrite (IH _ Hnext).
    rewrite (detections_step d0 w e Hsteady), length_app.
    destruct e; case_decide; simpl; lia.
Qed.

Lemma detections_start (d0 : page) : detections (DOMContentLoaded d0) = [].
Proof. unfold DOMContentLoaded. by case_decide. Qed.

(** X8: on a page with the button and the status line every click sends
    its own request to [/run_ai], also while earlier ones are unanswered:
    after any run the number of such requests is the number of clicks. *)
Theorem every_click_asks (d0 : page) (events : list event) :
  is_Some (d0 !! runBtn) → is_Some (d0 !! status) →
  length (detections (run (DOMContentLoaded d0) events)) = clicks events.
Proof.
  intros Hbtn Hstatus.
  rewrite (detections_run d0 events _ (steady_start d0)), detections_start.
  by rewrite decide_True.
Qed.

(** X9: on a page that lacks the button or the status line no click ever
    reaches the network: [/run_ai] is never requested. *)
Theorem no_status_no_request (d0 : page) (events : list event) :
  d0 !! runBtn = None ∨ d0 !! status = None →
  detections (run (DOMContentLoaded d0) events) = [].
Proof.
  intros Hmissing. apply length_zero_iff_nil.
  rewrite (detections_run d0 events _ (steady_start d0)), detections_start.
  rewrite decide_False; [done|].
  intros [[? Hbtn] [? Hstatus]]. destruct Hmissing; congruence.
Qed.

End MoreOfTheLoop.

Section MoreOfThePoller.

Context {Number : Type} {number : JSNumber Number}.

(** ** Answers that overtake each other *)

Lemma refreshData_answered_keeps (d0 d : page) (r : completion response) :
  dom (answered r (refreshData d0).1 d).2 = dom d.
Proof.
  rewrite refreshData_answered.
  destruct r as [res|err]; [destruct (json res) as [data|err]|];
    apply settle_keeps;
    auto using refreshData_catch_keeps, refreshData_render_keeps,
      try_catch_keeps.
Qed.

(** A body whose three fields have a text, answered on a page that has the
    four display elements: all four are written. *)
Lemma refreshData_render_all (data : value) (d : page) (summary : string) :
  is_Some (d !! liveData) → is_Some (d !! tempSpan) →
  is_Some (d !! gasSpan) → is_Some (d !! helmetSpan) →
  liveData_text data = Normal summary →
  ∃ temperature gas_level helmet_violations : string,
    ∀ d' : page, dom d' = dom d →
      refreshData_render data d'
      = (Normal tt,
         <[helmetSpan := helmet_violations]>
           (<[gasSpan := gas_level]>
              (<[tempSpan := temperature]> (<[liveData := summary]> d')))).
Proof.
  intros Hlive Htemp Hgas Hhelmet Htext.
  apply elem_of_dom in Hlive, Htemp, Hgas, Hhelmet.
  destruct (liveData_text_fields _ _ Htext) as (t & g & h & Ht & Hg & Hh & _).
  exists (t +:+ " °C"), (g +:+ " ppm"), h. intros d' Hdom.
  unfold refreshData_render, js_bind, lift. rewrite Htext, Ht, Hg, Hh.
  by repeat write_there.
Qed.

(** X10: on a page with the four display elements, a poll answer that
    renders decides all four texts by itself: whatever an earlier answer
    (of an earlier or a later request) left there is overwritten, so the
    page shows the answer that arrived last. *)
Theorem last_answer_wins (d0 d1 d : page) (earlier later : completion response) :
  is_Some (d !! liveData) → is_Some (d !! tempSpan) →
  is_Some (d !! gasSpan) → is_Some (d !! helmetSpan) →
  refreshData_failed later d = false →
  answered later (refreshData d1).1 (answered earlier (refreshData d0).1 d).2
  = answered later (refreshData d1).1 d.
Proof.
  intros Hlive Htemp Hgas Hhelmet Hrenders.
  pose proof (refreshData_answered_keeps d0 d earlier) as Hdom.
  pose proof (refreshData_answered_frame d0 d earlier) as Hframe.
  set (left_behind := (answered earlier (refreshData d0).1 d).2) in *.
  rewrite !refreshData_answered.
  unfold refreshData_failed in Hrenders.
  destruct later as [res|err]; [|done].
  destruct (json res) as [data|err]; [|done].
  destruct (liveData_text data) as [summary|err] eqn:Htext.
  2:{ by rewrite (refreshData_render_no_text _ _ _ Htext) in Hrenders. }
  destruct (refreshData_render_all data d summary) as (t & g & h & Hall);
    [done..|].
  unfold settle, try_catch. rewrite (Hall left_behind Hdom), (Hall d eq_refl).
  f_equal. apply map_eq. intros id.
  destruct (decide (id ∈ poll_elements)) as [Hin|Hout].
  - unfold poll_elements in Hin. set_unfold in Hin.
    destruct Hin as [[[-> | ->] | ->] | ->];
      unfold liveData, tempSpan, gasSpan, helmetSpan; by simplify_map_eq.
  - assert (id ≠ liveData ∧ id ≠ tempSpan ∧ id ≠ gasSpan ∧ id ≠ helmetSpan)
      as (? & ? & ? & ?) by (unfold poll_elements in Hout; set_solver).
    rewrite !lookup_insert_ne by done. by apply Hframe.
Qed.

End MoreOfThePoller.

(** * Properties of sup/main.js *)

Section TheSecondScript.

Context {Number : Type} {number : JSNumber Number} {arith : JSArith Number}.

(** ** Its handlers, one by one *)

Lemma write_there_browser (id text : string) (b : browser) :
  is_Some (texts b !! id) →
  write id text b
  = (Normal tt,
     Browser (<[id := text]> (texts b)) (body_class b) (local_storage b)
             (metric_shadows b) (section_opacity b)).
Proof. intros Hid. unfold write. by rewrite set_textContent_present. Qed.

(** The load never throws: the one write is inside its presence check. *)
Lemma theme_load_shape (prefers_dark : bool) (b : browser) :
  ∃ (icon : page → page) (classes : gset string),
    theme_load prefers_dark b
    = (Normal tt,
       Browser (icon (texts b)) classes (local_storage b) (metric_shadows b)
               (section_opacity b))
    ∧ dom (icon (texts b)) = dom (texts b)
    ∧ (∀ id, id ≠ themeToggle → icon (texts b) !! id = texts b !! id)
    ∧ (classes = body_class b ∨ classes = {["dark"]} ∪ body_class b)
    ∧ ("dark" ∈ classes ↔
         "dark" ∈ body_class b ∨ local_storage b !! "theme" = Some "dark"
         ∨ (is_falsy (local_storage b !! "theme") = true ∧ prefers_dark = true)).
Proof.
  unfold theme_load.
  destruct (bool_decide (local_storage b !! "theme" = Some "dark")
            || is_falsy (local_storage b !! "theme") && prefers_dark) eqn:Hdark.
  - assert (local_storage b !! "theme" = Some "dark"
            ∨ (is_falsy (local_storage b !! "theme") = true ∧ prefers_dark = true))
      as Hwhy.
    { apply orb_true_iff in Hdark as [Hstored|Hfollow].
      - left. by apply bool_decide_eq_true in Hstored.
      - right. by apply andb_true_iff in Hfollow. }
    destruct (decide (is_Some (texts b !! themeToggle))) as [Htoggle|Htoggle].
    + exists (<[themeToggle := "☀️"]>), ({["dark"]} ∪ body_class b).
      rewrite write_there_browser by exact Htoggle. simpl.
      split; [done|]. split.
      { rewrite dom_insert_L. apply elem_of_dom in Htoggle. set_solver. }
      split; [intros id Hid; by rewrite lookup_insert_ne|].
      split; [by right|]. set_solver.
    + exists (λ t, t), ({["dark"]} ∪ body_class b).
      split; [done|]. split; [done|]. split; [done|].
      split; [by right|]. set_solver.
  - exists (λ t, t), (body_class b). destruct b. simpl in *.
    split; [done|]. split; [done|]. split; [done|].
    split; [by left|].
    apply orb_false_iff in Hdark as [Hstored Hfollow].
    apply bool_decide_eq_false in Hstored.
    apply andb_false_iff in Hfollow.
    split; [by left|]. intros [?|[?|[? ?]]]; [done|done|].
    destruct Hfollow; congruence.
Qed.

Lemma sup_steady_start (prefers_dark : bool) (b : browser) :
  sup_steady b (sup_main prefers_dark b).
Proof.
  unfold sup_main, sup_steady.
  destruct (theme_load_shape prefers_dark b)
    as (icon & classes & -> & Hdom & Hframe & _). simpl.
  assert (Hsame : ∀ id, is_Some (icon (texts b) !! id) ↔ is_Some (texts b !! id)).
  { intros id. by rewrite <- !elem_of_dom, Hdom. }
  split; [done|]. split; [done|]. split.
  { apply bool_decide_ext, Hsame. }
  split; [|done].
  destruct (decide (is_Some (icon (texts b) !! hr) ∧ _)) as [Hnow|Hnow],
    (decide (is_Some (texts b !! hr) ∧ _)) as [Hthen|Hthen]; try done; exfalso.
  - apply Hthen. destruct Hnow as (? & ? & ?). repeat split; by apply Hsame.
  - apply Hnow. destruct Hthen as (? & ? & ?). repeat split; by apply Hsame.
Qed.

Lemma toggle_dark_twice (classes : gset string) :
  toggle_dark (toggle_dark classes) = classes.
Proof.
  unfold toggle_dark.
  repeat case_decide; apply set_eq; intros c;
    destruct (decide (c = "dark")) as [->|]; set_solver.
Qed.

Lemma toggle_dark_others (classes : gset string) (c : string) :
  c ≠ "dark" → c ∈ toggle_dark classes ↔ c ∈ classes.
Proof. intros Hc. unfold toggle_dark. case_decide; set_solver. Qed.

(** With the three readouts there, the interval callback writes them and
    every metric card, and ends normally. *)
Lemma sim_callback_there (random : nat → Number) (b : browser) :
  is_Some (texts b !! hr) → is_Some (texts b !! temp) → is_Some (texts b !! alerts) →
  sim_callback random b
  = (Normal tt,
     Browser (<[alerts := alerts_text (random 2)]>
                (<[temp := temp_text (random 1)]>
                   (<[hr := hr_text (random 0)]> (texts b))))
             (body_class b) (local_storage b)
             (imap (λ i _, metric_shadow (random (3 + i))) (metric_shadows b))
             (section_opacity b)).
Proof.
  intros Hhr Htemp Halerts. unfold sim_callback, js_bind.
  rewrite set_textContent_present by done.
  rewrite set_textContent_present by (by apply present_insert).
  rewrite set_textContent_present by (by do 2 apply present_insert).
  reflexivity.
Qed.

(** One turn of the second script's loop, in full. *)
Lemma sup_step_seen (b : browser) (w : sup_world) (e : sup_event) :
  sup_steady b w →
  sup_steady b (sup_step w e)
  ∧ seen (sup_step w e)
    = match e with
      | ThemeClick =>
          if decide (is_Some (texts b !! themeToggle)) then
            let classes := toggle_dark (body_class (seen w)) in
            let dark := bool_decide ("dark" ∈ classes) in
            Browser (<[themeToggle := if dark then "☀️" else "🌙"]> (texts (seen w)))
                    classes
                    (<["theme" := if dark then "dark" else "light"]>
                       (local_storage (seen w)))
                    (metric_shadows (seen w)) (section_opacity (seen w))
          else seen w
      | SimTick random =>
          if decide (is_Some (texts b !! hr) ∧ is_Some (texts b !! temp)
                     ∧ is_Some (texts b !! alerts)) then
            Browser (<[alerts := alerts_text (random 2)]>
                       (<[temp := temp_text (random 1)]>
                          (<[hr := hr_text (random 0)]> (texts (seen w)))))
                    (body_class (seen w)) (local_storage (seen w))
                    (imap (λ i _, metric_shadow (random (3 + i)))
                          (metric_shadows (seen w)))
                    (section_opacity (seen w))
          else seen w
      | Scroll innerHeight top =>
          Browser (texts (seen w)) (body_class (seen w)) (local_storage (seen w))
                  (metric_shadows (seen w))
                  (imap (λ i opacity,
                           if Qlt_le_dec (top i) (inject_Z (innerHeight - 80))
                           then "1" else opacity)
                        (section_opacity (seen w)))
      end.
Proof.
  intros (Hnone & Hdom & Htheme & Hsim & Hscroll).
  assert (Hsame : ∀ id, is_Some (texts (seen w) !! id) ↔ is_Some (texts b !! id)).
  { intros id. by rewrite <- !elem_of_dom, Hdom. }
  unfold sup_steady. destruct e as [|random|innerHeight top]; cbn [sup_step].
  - rewrite Htheme.
    destruct (decide (is_Some (texts b !! themeToggle))) as [Htoggle|Htoggle].
    + rewrite bool_decide_eq_true_2 by done.
      unfold deliver, theme_click.
      rewrite write_there_browser by (by apply Hsame).
      cbn [seen uncaught theme_listener sim_timer scroll_listener texts].
      split; [|reflexivity].
      split_and!; [by rewrite Hnone| |by rewrite Htheme, bool_decide_eq_true_2
                  |done|done].
      rewrite dom_insert_L, <- Hdom.
      apply Hsame, elem_of_dom in Htoggle. set_solver.
    + rewrite bool_decide_eq_false_2 by done.
      split; [|reflexivity].
      split_and!; [done|done|by rewrite Htheme, bool_decide_eq_false_2|done|done].
  - rewrite Hsim.
    destruct (decide (is_Some (texts b !! hr) ∧ _)) as [Hthere|Hthere].
    + destruct Hthere as (Hhr & Htemp & Halerts).
      unfold deliver. rewrite sim_callback_there by (by apply Hsame).
      cbn [seen uncaught theme_listener sim_timer scroll_listener texts].
      split; [|reflexivity].
      split_and!; [by rewrite Hnone| |done|done|done].
      rewrite !dom_insert_L, <- Hdom.
      apply Hsame, elem_of_dom in Hhr, Htemp, Halerts. set_solver.
    + split; [|reflexivity].
      split_and!; done.
  - rewrite Hscroll. unfold deliver, scroll_fade.
    cbn [seen uncaught theme_listener sim_timer scroll_listener texts].
    split; [|reflexivity].
    split_and!; [by rewrite Hnone|done|done|done|done].
Qed.

Lemma sup_steady_run (b : browser) (events : list sup_event) (w : sup_world) :
  sup_steady b w → sup_steady b (sup_run w events).
Proof.
  revert w. induction events as [|e events IH]; intros w Hsteady; [done|].
  unfold sup_run in *. cbn [foldl]. apply IH. by apply sup_step_seen.
Qed.

(** X11: the second script never throws, whatever the page lacks: every
    element it writes is behind a presence check made at load.  After any
    run nothing went uncaught, the page has the elements it had and as many
    metric cards and sections. *)
Theorem sup_never_throws (prefers_dark : bool) (b : browser) (events : list sup_event) :
  let w := sup_run (sup_main prefers_dark b) events in
  uncaught w = []
  ∧ dom (texts (seen w)) = dom (texts b)
  ∧ length (metric_shadows (seen w)) = length (metric_shadows b)
  ∧ length (section_opacity (seen w)) = length (section_opacity b).
Proof.
  intros w.
  destruct (sup_steady_run b events _ (sup_steady_start prefers_dark b))
    as (Hnone & Hdom & _).
  split; [done|]. split; [done|].
  assert (Hrun : ∀ events w0,
             sup_steady b w0 →
             length (metric_shadows (seen (sup_run w0 events)))
             = length (metric_shadows (seen w0))
             ∧ length (section_opacity (seen (sup_run w0 events)))
               = length (section_opacity (seen w0))).
  { clear. induction events as [|e events IH]; intros w0 Hsteady; [done|].
    destruct (sup_step_seen b w0 e Hsteady) as [Hnext Hseen].
    unfold sup_run in *. cbn [foldl].
    destruct (IH _ Hnext) as [-> ->]. rewrite Hseen.
    destruct e; repeat case_decide; simpl; by rewrite ?length_imap. }
  destruct (Hrun events _ (sup_steady_start prefers_dark b)) as [Hm Hs].
  fold w in Hm, Hs. rewrite Hm, Hs. unfold sup_main.
  by destruct (theme_load_shape prefers_dark b) as (icon & classes & -> & _).
Qed.

End TheSecondScript.

Section TheSecondScriptAtWork.

Context {Number : Type} {number : JSNumber Number} {arith : JSArith Number}.

(** The cases of [sup_step_seen]: the event, and whether its listener or
    timer was registered. *)
Ltac turn_cases e :=
  destruct e as [|?random|?innerHeight ?top];
  [ destruct (decide (is_Some (texts _ !! themeToggle)))
  | destruct (decide (is_Some (texts _ !! hr) ∧ _))
  | ].

(** ** The theme *)

(** The stored theme and the icon say what the class list says. *)
Local Abbreviation theme_agrees b :=
  (local_storage b !! "theme"
   = Some (if bool_decide ("dark" ∈ body_class b) then "dark" else "light")
   ∧ texts b !! themeToggle
     = Some (if bool_decide ("dark" ∈ body_class b) then "☀️" else "🌙")).

Lemma theme_agrees_run (b : browser) (events : list sup_event) (w : sup_world) :
  sup_steady b w → is_Some (texts b !! themeToggle) →
  theme_agrees (seen w) ∨ 0 < theme_clicks events →
  theme_agrees (seen (sup_run w events)).
Proof.
  intros Hsteady Htoggle. revert w Hsteady.
  induction events as [|e events IH]; intros w Hsteady Hstart.
  - destruct Hstart as [Hagrees|Hclicked]; [done|simpl in Hclicked; lia].
  - destruct (sup_step_seen b w e Hsteady) as [Hnext Hseen].
    unfold sup_run in *. cbn [foldl]. apply IH; [done|].
    rewrite Hseen. destruct e as [|random|innerHeight top].
    + left. rewrite decide_True by done. cbn [local_storage texts body_class].
      by rewrite !lookup_insert_eq.
    + destruct Hstart as [Hagrees|Hclicked]; [left|by right].
      case_decide; [|done]. cbn [local_storage texts body_class].
      unfold themeToggle, hr, temp, alerts in *.
      by rewrite !lookup_insert_ne.
    + destruct Hstart as [Hagrees|Hclicked]; [by left|by right].
Qed.

Lemma sup_main_seen (prefers_dark : bool) (b : browser) :
  seen (sup_main prefers_dark b) = (theme_load prefers_dark b).2.
Proof.
  unfold sup_main.
  by destruct (theme_load_shape prefers_dark b) as (icon & classes & -> & _).
Qed.

(** X12: once the toggle has been clicked, the stored theme, the icon and
    the class list of the body agree (dark, "dark" and the sun; light,
    "light" and the moon), and they survive a reload: loading a page whose
    body is not dark by itself, with the storage as it was left, gives dark
    exactly when the page was left dark, whatever the system prefers. *)
Theorem theme_survives_reload
    (prefers_dark prefers_later : bool) (b fresh : browser)
    (events : list sup_event) :
  is_Some (texts b !! themeToggle) → 0 < theme_clicks events →
  let there := seen (sup_run (sup_main prefers_dark b) events) in
  let dark := bool_decide ("dark" ∈ body_class there) in
  local_storage there !! "theme" = Some (if dark then "dark" else "light")
  ∧ texts there !! themeToggle = Some (if dark then "☀️" else "🌙")
  ∧ ("dark" ∉ body_class fresh →
     local_storage fresh = local_storage there →
     ("dark" ∈ body_class (seen (sup_main prefers_later fresh))
      ↔ "dark" ∈ body_class there)).
Proof.
  intros Htoggle Hclicked there dark.
  destruct (theme_agrees_run b events (sup_main prefers_dark b)) as [Hstored Hicon];
    [apply sup_steady_start|done|by right|].
  fold there in Hstored, Hicon. fold dark in Hstored, Hicon.
  split; [done|]. split; [done|].
  intros Hplain Hstorage. rewrite sup_main_seen.
  destruct (theme_load_shape prefers_later fresh)
    as (icon & classes & -> & _ & _ & _ & Hdark).
  cbn [snd body_class]. rewrite Hdark, Hstorage, Hstored.
  unfold dark. case_bool_decide as Hthere; simpl.
  - split; [done|]. intros _. right. by left.
  - split; [|done]. intros [?|[[=]|[[=] _]]]. done.
Qed.

Lemma toggle_dark_iter (n : nat) (classes : gset string) :
  Nat.iter n toggle_dark classes
  = if Nat.odd n then toggle_dark classes else classes.
Proof.
  induction n as [|n IH]; [done|].
  rewrite Nat.odd_succ, <- Nat.negb_odd, Nat.iter_succ, IH.
  destruct (Nat.odd n); simpl; [apply toggle_dark_twice|done].
Qed.

Lemma body_class_run (b : browser) (events : list sup_event) (w : sup_world) :
  sup_steady b w →
  body_class (seen (sup_run w events))
  = Nat.iter (if decide (is_Some (texts b !! themeToggle))
              then theme_clicks events else 0)
             toggle_dark (body_class (seen w)).
Proof.
  revert w. induction events as [|e events IH]; intros w Hsteady.
  - by case_decide.
  - destruct (sup_step_seen b w e Hsteady) as [Hnext Hseen].
    unfold sup_run in *. cbn [foldl]. rewrite (IH _ Hnext), Hseen.
    destruct e as [|random|innerHeight top]; cbn [theme_clicks].
    + case_decide; [|done]. cbn [body_class]. by rewrite Nat.iter_succ_r.
    + by case_decide.
    + done.
Qed.

(** X13: the toggle only ever adds or removes the class "dark": after any
    run the body has the class list the load gave it if the toggle was
    clicked an even number of times (or is missing), and that list with
    "dark" switched otherwise; any other class of the body is as the page
    had it.  So two clicks, with anything in between, undo each other. *)
Theorem theme_clicks_parity (prefers_dark : bool) (b : browser) (events : list sup_event) :
  let loaded := body_class (seen (sup_main prefers_dark b)) in
  let now := body_class (seen (sup_run (sup_main prefers_dark b) events)) in
  now = (if bool_decide (is_Some (texts b !! themeToggle))
            && Nat.odd (theme_clicks events)
         then toggle_dark loaded else loaded)
  ∧ ∀ c, c ≠ "dark" → (c ∈ now ↔ c ∈ body_class b).
Proof.
  intros loaded now.
  assert (Hnow : now = (if bool_decide (is_Some (texts b !! themeToggle))
                           && Nat.odd (theme_clicks events)
                        then toggle_dark loaded else loaded)).
  { unfold now. rewrite (body_class_run b events _ (sup_steady_start _ _)).
    fold loaded. rewrite toggle_dark_iter.
    case_decide as Htoggle.
    - by rewrite bool_decide_eq_true_2.
    - by rewrite bool_decide_eq_false_2. }
  split; [done|]. intros c Hc.
  assert (Hloaded : c ∈ loaded ↔ c ∈ body_class b).
  { unfold loaded. rewrite sup_main_seen.
    destruct (theme_load_shape prefers_dark b)
      as (icon & classes & -> & _ & _ & [-> | ->] & _); simpl; set_solver. }
  rewrite Hnow.
  destruct (bool_decide _ && Nat.odd _); [|done].
  by rewrite toggle_dark_others.
Qed.

(** X14: of [localStorage] the script writes the key "theme" and no other,
    and only at a click: every other key keeps its value, and without a
    click (or without the toggle) the storage is left exactly as found, so
    a first visit stores nothing. *)
Theorem storage_written_by_clicks_only
    (prefers_dark : bool) (b : browser) (events : list sup_event) :
  let there := seen (sup_run (sup_main prefers_dark b) events) in
  (∀ key, key ≠ "theme" → local_storage there !! key = local_storage b !! key)
  ∧ (theme_clicks events = 0 ∨ texts b !! themeToggle = None →
     local_storage there = local_storage b).
Proof.
  intros there.
  assert (Hstart : local_storage (seen (sup_main prefers_dark b)) = local_storage b).
  { rewrite sup_main_seen.
    by destruct (theme_load_shape prefers_dark b) as (icon & classes & -> & _). }
  assert (Hrun : ∀ events w,
             sup_steady b w →
             (∀ key, key ≠ "theme" →
                     local_storage (seen (sup_run w events)) !! key
                     = local_storage (seen w) !! key)
             ∧ (theme_clicks events = 0 ∨ texts b !! themeToggle = None →
                local_storage (seen (sup_run w events)) = local_storage (seen w))).
  { clear. induction events as [|e events IH]; intros w Hsteady; [done|].
    destruct (sup_step_seen b w e Hsteady) as [Hnext Hseen].
    destruct (IH _ Hnext) as [IHframe IHnone].
    unfold sup_run in *. cbn [foldl]. split.
    - intros key Hkey. rewrite (IHframe key Hkey), Hseen.
      turn_cases e; try done.
      cbn [local_storage]. by rewrite lookup_insert_ne.
    - intros Hnone. destruct e as [|random|innerHeight top].
      + destruct Hnone as [Hnone|Hnone]; [done|].
        rewrite IHnone by (by right). rewrite Hseen.
        rewrite decide_False; [done|]. rewrite Hnone. by intros [? [=]].
      + rewrite IHnone by done. rewrite Hseen. by case_decide.
      + rewrite IHnone by done. by rewrite Hseen. }
  destruct (Hrun events _ (sup_steady_start prefers_dark b)) as [Hframe Hnone].
  fold there in Hframe, Hnone. rewrite Hstart in Hframe, Hnone. done.
Qed.

(** ** The readout *)

(** X15: the texts the second script may change are those of the toggle,
    hr, temp and alerts; and the readout is all or nothing: on a page that
    lacks one of hr, temp and alerts no interval is set, and no text but
    the toggle's and no metric card is ever changed. *)
Theorem readout_all_or_nothing
    (prefers_dark : bool) (b : browser) (events : list sup_event) :
  let there := seen (sup_run (sup_main prefers_dark b) events) in
  (∀ id, id ∉ [themeToggle; hr; temp; alerts] →
         texts there !! id = texts b !! id)
  ∧ (¬ (is_Some (texts b !! hr) ∧ is_Some (texts b !! temp)
        ∧ is_Some (texts b !! alerts)) →
     sim_timer (sup_main prefers_dark b) = None
     ∧ metric_shadows there = metric_shadows b
     ∧ ∀ id, id ≠ themeToggle → texts there !! id = texts b !! id).
Proof.
  intros there.
  assert (Hstart : metric_shadows (seen (sup_main prefers_dark b)) = metric_shadows b
                   ∧ ∀ id, id ≠ themeToggle →
                           texts (seen (sup_main prefers_dark b)) !! id
                           = texts b !! id).
  { rewrite sup_main_seen.
    by destruct (theme_load_shape prefers_dark b)
      as (icon & classes & -> & _ & Hframe & _). }
  destruct Hstart as [Hmetrics Htexts].
  assert (Hrun : ∀ events w,
             sup_steady b w →
             (∀ id, id ∉ [themeToggle; hr; temp; alerts] →
                    texts (seen (sup_run w events)) !! id = texts (seen w) !! id)
             ∧ (¬ (is_Some (texts b !! hr) ∧ is_Some (texts b !! temp)
                   ∧ is_Some (texts b !! alerts)) →
                metric_shadows (seen (sup_run w events)) = metric_shadows (seen w)
                ∧ ∀ id, id ≠ themeToggle →
                        texts (seen (sup_run w events)) !! id
                        = texts (seen w) !! id)).
  { clear. induction events as [|e events IH]; intros w Hsteady; [done|].
    destruct (sup_step_seen b w e Hsteady) as [Hnext Hseen].
    destruct (IH _ Hnext) as [IHframe IHnone].
    unfold sup_run in *. cbn [foldl]. split.
    - intros id Hid. rewrite (IHframe id Hid), Hseen.
      assert (id ≠ themeToggle ∧ id ≠ hr ∧ id ≠ temp ∧ id ≠ alerts)
        as (? & ? & ? & ?) by set_solver.
      turn_cases e; try done; cbn [texts];
        by rewrite !lookup_insert_ne.
    - intros Hmissing. destruct (IHnone Hmissing) as [-> IHtexts].
      rewrite Hseen. split.
      + turn_cases e; done.
      + intros id Hid. rewrite (IHtexts id Hid), Hseen.
        turn_cases e; try done; cbn [texts].
        by rewrite lookup_insert_ne. }
  destruct (Hrun events _ (sup_steady_start prefers_dark b)) as [Hframe Hnone].
  fold there in Hframe, Hnone. split.
  - intros id Hid. rewrite (Hframe id Hid). apply Htexts. set_solver.
  - intros Hmissing. destruct (Hnone Hmissing) as [-> Hsame].
    split; [|split; [done|]].
    + destruct (sup_steady_start prefers_dark b) as (_ & _ & _ & -> & _).
      by rewrite decide_False.
    + intros id Hid. rewrite (Hsame id Hid). by apply Htexts.
Qed.

(** ** The scroll fade *)

Lemma section_opacity_run (b : browser) (events : list sup_event) (w : sup_world) (i : nat) :
  sup_steady b w →
  section_opacity (seen (sup_run w events)) !! i
  = if came_into_view i events
    then (λ _, "1") <$> section_opacity (seen w) !! i
    else section_opacity (seen w) !! i.
Proof.
  revert w. induction events as [|e events IH]; intros w Hsteady; [done|].
  destruct (sup_step_seen b w e Hsteady) as [Hnext Hseen].
  unfold sup_run in *. cbn [foldl]. rewrite (IH _ Hnext), Hseen.
  destruct e as [|random|innerHeight top]; cbn [came_into_view].
  - by case_decide.
  - by case_decide.
  - cbn [section_opacity]. rewrite list_lookup_imap.
    destruct (section_opacity (seen w) !! i) as [opacity|]; simpl;
      destruct (Qlt_le_dec (top i) (inject_Z (innerHeight - 80)));
      by destruct (came_into_view i events).
Qed.

(** X16: the fade goes one way.  After any run, a section has opacity "1"
    if at one of the scroll events its top was less than the window height
    minus 80, and has the opacity the page gave it otherwise: no scrolling
    takes a section out again, and nothing else touches the opacity. *)
Theorem fade_in_only
    (prefers_dark : bool) (b : browser) (events : list sup_event) (i : nat) :
  section_opacity (seen (sup_run (sup_main prefers_dark b) events)) !! i
  = if came_into_view i events
    then (λ _, "1") <$> section_opacity b !! i
    else section_opacity b !! i.
Proof.
  rewrite (section_opacity_run b events _ i (sup_steady_start prefers_dark b)).
  rewrite sup_main_seen.
  by destruct (theme_load_shape prefers_dark b) as (icon & classes & -> & _).
Qed.

End TheSecondScriptAtWork.

(** * The further properties on the example pages *)

Lemma dashboard_page_elements (id : string) :
  id ∈ [runBtn; status; liveData; tempSpan; gasSpan; helmetSpan] →
  is_Some (dashboard_page !! id).
Proof.
  intros Hid. repeat (apply elem_of_cons in Hid as [->|Hid]);
    [vm_compute; eexists; reflexivity ..|].
  by apply elem_of_nil in Hid.
Qed.

Lemma refreshData_missing_fields_witness :
  answered (Normal (Response 200 (Some (VStr "maintenance" : @value literal))))
    (refreshData dashboard_page).1 dashboard_page
  = (Settled (Normal tt),
     <[helmetSpan := "undefined"]>
       (<[gasSpan := "undefined ppm"]>
          (<[tempSpan := "undefined °C"]>
             (<[liveData := "🌡️ Temp: undefined °C | 🧪 Gas: undefined ppm | ⛑️ Helmet Violations: undefined"]>
                dashboard_page)))).
Proof.
  exact (refreshData_missing_fields dashboard_page dashboard_page 200
           (VStr "maintenance")
           (dashboard_page_elements liveData ltac:(set_solver))
           (dashboard_page_elements tempSpan ltac:(set_solver))
           (dashboard_page_elements gasSpan ltac:(set_solver))
           (dashboard_page_elements helmetSpan ltac:(set_solver))
           eq_refl eq_refl eq_refl).
Defined.

Lemma runAI_missing_fields_witness :
  answered (Normal (Response 200 (Some (VArr [] : @value literal))))
    (runAI_click dashboard_page).1 dashboard_page
  = (Settled (Normal tt), <[status := "❌ Error: undefined"]> dashboard_page)
  ∧ answered
      (Normal (Response 200
                 (Some (VObj [("status", VStr "success" : @value literal);
                              ("data", VObj [])]))))
      (runAI_click dashboard_page).1 dashboard_page
    = (Settled (Normal tt),
       <[status := "✅ Detection Complete! Helmet Violations: undefined"]>
         dashboard_page).
Proof.
  pose proof (dashboard_page_elements status ltac:(set_solver)) as Hstatus.
  split.
  - exact (proj1 (runAI_missing_fields dashboard_page dashboard_page 200
                    (VArr []) Hstatus Hstatus)
             VUndefined eq_refl eq_refl eq_refl).
  - exact (proj2 (runAI_missing_fields dashboard_page dashboard_page 200
                    (VObj [("status", VStr "success"); ("data", VObj [])])
                    Hstatus Hstatus)
             (VObj []) eq_refl eq_refl eq_refl).
Defined.

Lemma runAI_unreadable_body_witness :
  answered (Normal (Response 502 (None : option (@value literal))))
    (runAI_click dashboard_page).1 dashboard_page
  = (Settled (Normal tt),
     <[status := "⚠️ Cannot connect to backend."]> dashboard_page).
Proof.
  pose proof (dashboard_page_elements status ltac:(set_solver)) as Hstatus.
  exact (runAI_unreadable_body dashboard_page dashboard_page (Response 502 None)
           Hstatus Hstatus (or_introl eq_refl)).
Defined.

Lemma untouched_elements_witness :
  document (run (DOMContentLoaded (number:=literal_number) dashboard_page)
              [Click; FetchSettled 0 (Normal (Response 200 (Some reading_36_2)));
               BodyRead 0; Tick; FetchSettled 1 (Throw TypeError)])
    !! runBtn
  = dashboard_page !! runBtn.
Proof.
  apply (untouched_elements dashboard_page).
  unfold script_elements, poll_elements, runBtn, status, liveData, tempSpan,
    gasSpan, helmetSpan.
  set_solver.
Defined.

Lemma every_click_asks_witness :
  length (detections
            (run (DOMContentLoaded (number:=literal_number) dashboard_page)
               [Click; Click; Tick; FetchSettled 2 (Throw TypeError); Click]))
  = 3.
Proof.
  exact (every_click_asks dashboard_page
           [Click; Click; Tick; FetchSettled 2 (Throw TypeError); Click]
           (dashboard_page_elements runBtn ltac:(set_solver))
           (dashboard_page_elements status ltac:(set_solver))).
Defined.

Lemma no_status_no_request_witness :
  detections (run (DOMContentLoaded (number:=literal_number) page_without_status)
                [Click; Tick; Click])
  = [].
Proof.
  apply (no_status_no_request page_without_status). right. reflexivity.
Defined.

Lemma last_answer_wins_witness :
  answered (Normal (Response 200 (Some reading_36_2)))
    (refreshData dashboard_page).1
    (answered (Normal error_500) (refreshData dashboard_page).1 dashboard_page).2
  = answered (Normal (Response 200 (Some reading_36_2)))
      (refreshData dashboard_page).1 dashboard_page.
Proof.
  exact (last_answer_wins dashboard_page dashboard_page dashboard_page
           (Normal error_500) (Normal (Response 200 (Some reading_36_2)))
           (dashboard_page_elements liveData ltac:(set_solver))
           (dashboard_page_elements tempSpan ltac:(set_solver))
           (dashboard_page_elements gasSpan ltac:(set_solver))
           (dashboard_page_elements helmetSpan ltac:(set_solver))
           eq_refl).
Defined.

Lemma theme_survives_reload_witness :
  let there :=
    seen (sup_run (Number:=symbolic) (sup_main true landing_page)
            [ThemeClick; SimTick some_random]) in
  local_storage there !! "theme" = Some "light"
  ∧ texts there !! themeToggle = Some "🌙"
  ∧ ("dark" ∈ body_class (seen (sup_main true landing_page_revisited))
     ↔ "dark" ∈ body_class there).
Proof.
  intros there.
  assert (Htoggle : is_Some (texts landing_page !! themeToggle))
    by (vm_compute; eexists; reflexivity).
  assert (Hclicked : 0 < theme_clicks (Number:=symbolic) [ThemeClick; SimTick some_random])
    by (simpl; lia).
  destruct (theme_survives_reload true true landing_page landing_page_revisited
              [ThemeClick; SimTick some_random] Htoggle Hclicked)
    as (Hstored & Hicon & Hreload).
  split; [exact Hstored|]. split; [exact Hicon|].
  apply Hreload; by vm_compute.
Defined.

(** The landing page through a first visit in a dark-preferring system:
    dark at load, light after a click, the readout running, two sections
    faded in. *)
Lemma a_visit :
  let w0 := sup_main true landing_page in
  let w := sup_run w0 [ThemeClick; SimTick some_random; Scroll 700 first_layout;
                       Scroll 700 second_layout] in
  elements (body_class (seen w0)) = ["dark"]
  ∧ texts (seen w0) !! themeToggle = Some "☀️"
  ∧ sim_timer w0 = Some 1800%N
  ∧ elements (body_class (seen w)) = []
  ∧ local_storage (seen w) !! "theme" = Some "light"
  ∧ texts (seen w) !! hr = Some "Math.floor(70 + (random0 * 20)) bpm"
  ∧ texts (seen w) !! temp = Some "(33 + (random1 * 2)).toFixed(1) °C"
  ∧ texts (seen w) !! alerts = Some "Math.floor(random2 * 3)"
  ∧ metric_shadows (seen w)
    = ["0 0 20px rgba(0,217,255,(0.3 + (random3 * 0.2)))";
       "0 0 20px rgba(0,217,255,(0.3 + (random4 * 0.2)))"]
  ∧ section_opacity (seen w) = ["1"; "1"; ""]
  ∧ uncaught w = [].
Proof. by vm_compute. Qed.

(** On a page without the alerts element a run changes nothing but what
    scrolling and the toggle do. *)
Lemma a_visit_without_alerts :
  let w := sup_run (sup_main false page_without_alerts)
             [SimTick some_random; ThemeClick; SimTick some_random] in
  sim_timer w = None
  ∧ texts (seen w) !! hr = Some "-- bpm"
  ∧ texts (seen w) !! temp = Some "-- °C"
  ∧ metric_shadows (seen w) = ["none"]
  ∧ elements (body_class (seen w)) = ["dark"]
  ∧ uncaught w = [].
Proof. by vm_compute. Qed.

Section MoreOfMissingElements.

Context {Number : Type} {number : JSNumber Number}.

(** ** A page without one of the secondary elements *)

(** X17: on a page that has liveData but lacks temp, gas or helmet (at
    load, and still when the answer comes), no poll ever leaves a reading
    in liveData: the write to the missing element throws inside the [try],
    so whatever the answer, the call ends normally with liveData reading
    "No live data available.".  What lines 32 and 33 wrote before the throw
    stays: a reading whose line 31 has its text is shown in temp if the
    page has it, and in gas if the page has temp and gas; helmet and every
    other element keep their texts.  An answer without a reading changes
    liveData only. *)
Theorem poll_without_secondary (d0 d : page) (r : completion response) :
  dom d = dom d0 → is_Some (d0 !! liveData) →
  d0 !! tempSpan = None ∨ d0 !! gasSpan = None ∨ d0 !! helmetSpan = None →
  ∃ d' : page,
    answered r (refreshData d0).1 d = (Settled (Normal tt), d')
    ∧ d' !! liveData = Some "No live data available."
    ∧ (∀ id, id ∉ [liveData; tempSpan; gasSpan] → d' !! id = d !! id)
    ∧ (no_reading r = true →
       d' !! tempSpan = d !! tempSpan ∧ d' !! gasSpan = d !! gasSpan)
    ∧ ∀ res data temperature gas_level,
        r = Normal res → json res = Normal data → no_reading r = false →
        interpolate data "temperature" = Normal temperature →
        interpolate data "gas_level" = Normal gas_level →
        d' !! tempSpan = (λ _, temperature +:+ " °C") <$> d !! tempSpan
        ∧ d' !! gasSpan
          = if decide (is_Some (d !! tempSpan))
            then (λ _, gas_level +:+ " ppm") <$> d !! gasSpan
            else d !! gasSpan.
Proof.
  intros Hdom Hlive0 Hmissing0.
  assert (Hlive : is_Some (d !! liveData)).
  { apply elem_of_dom. rewrite Hdom. by apply elem_of_dom. }
  assert (Hmissing : d !! tempSpan = None ∨ d !! gasSpan = None
                     ∨ d !! helmetSpan = None).
  { rewrite <- !(not_elem_of_dom d), Hdom, !not_elem_of_dom. exact Hmissing0. }
  clear Hdom Hlive0 Hmissing0.
  rewrite refreshData_answered.
  assert (Hplain : ∀ err, ∃ d' : page,
             settle (Number:=Number) (refreshData_catch err) d
             = (Settled (Normal tt), d')
             ∧ d' = <[liveData := "No live data available."]> d).
  { intros err. eexists. unfold settle, refreshData_catch.
    rewrite set_textContent_present by done. done. }
  assert (Hnothing : ∀ d' : page,
             d' = <[liveData := "No live data available."]> d →
             d' !! liveData = Some "No live data available."
             ∧ (∀ id, id ∉ [liveData; tempSpan; gasSpan] → d' !! id = d !! id)
             ∧ d' !! tempSpan = d !! tempSpan ∧ d' !! gasSpan = d !! gasSpan).
  { intros d' ->. split; [by rewrite lookup_insert_eq|].
    split; [|by rewrite !lookup_insert_ne].
    intros id Hid. rewrite lookup_insert_ne; [done|]. set_solver. }
  destruct r as [res|err].
  2:{ destruct (Hplain err) as (d' & Hd' & Hpage).
      destruct (Hnothing d' Hpage) as (? & ? & ? & ?).
      exists d'. repeat split; done. }
  unfold no_reading.
  destruct (json res) as [data|err] eqn:Hjson.
  2:{ destruct (Hplain err) as (d' & Hd' & Hpage).
      destruct (Hnothing d' Hpage) as (? & ? & ? & ?).
      exists d'. repeat split; done. }
  unfold settle, try_catch.
  destruct (liveData_text data) as [summary|err] eqn:Htext.
  2:{ rewrite (refreshData_render_no_text _ _ _ Htext).
      destruct (Hplain err) as (d' & Hd' & Hpage).
      destruct (Hnothing d' Hpage) as (? & ? & ? & ?).
      unfold settle in Hd'.
      exists d'. repeat split; done. }
  destruct (liveData_text_fields _ _ Htext) as (t & g & h & Ht & Hg & Hh & _).
  unfold refreshData_render, js_bind, lift. rewrite Htext, Ht, Hg, Hh.
  rewrite set_textContent_present by done.
  unfold refreshData_catch.
  assert (Hread : ∀ (res' : response) (data' : value) (t' g' : string),
             Normal res = Normal res' → json res' = Normal data' →
             interpolate data' "temperature" = Normal t' →
             interpolate data' "gas_level" = Normal g' →
             t' = t ∧ g' = g).
  { intros res' data' t' g' [= <-] Hjson' Ht' Hg'.
    rewrite Hjson in Hjson'. injection Hjson' as <-.
    rewrite Ht in Ht'. rewrite Hg in Hg'. by simplify_eq. }
  unfold liveData, tempSpan, gasSpan, helmetSpan in *.
  destruct (d !! "temp") as [temp0|] eqn:Htemp.
  - rewrite set_textContent_present
      by (rewrite lookup_insert_ne by done; by eexists).
    destruct (d !! "gas") as [gas0|] eqn:Hgas.
    + rewrite set_textContent_present
        by (rewrite !lookup_insert_ne by done; by eexists).
      destruct (d !! "helmet") as [helmet0|] eqn:Hhelmet.
      { destruct Hmissing as [?|[?|?]]; done. }
      rewrite set_textContent_absent by (by rewrite !lookup_insert_ne).
      rewrite set_textContent_present by (by repeat apply present_insert).
      eexists. split; [reflexivity|].
      split; [by rewrite lookup_insert_eq|]. split.
      { intros id Hid. rewrite !lookup_insert_ne by set_solver. done. }
      split; [done|].
      intros res' data' t' g' Hres Hjson' _ Ht' Hg'.
      destruct (Hread res' data' t' g' Hres Hjson' Ht' Hg') as [-> ->].
      split; by simplify_map_eq.
    + rewrite set_textContent_absent by (by rewrite !lookup_insert_ne).
      rewrite set_textContent_present by (by repeat apply present_insert).
      eexists. split; [reflexivity|].
      split; [by rewrite lookup_insert_eq|]. split.
      { intros id Hid. rewrite !lookup_insert_ne by set_solver. done. }
      split; [done|].
      intros res' data' t' g' Hres Hjson' _ Ht' Hg'.
      destruct (Hread res' data' t' g' Hres Hjson' Ht' Hg') as [-> ->].
      split; by simplify_map_eq.
  - rewrite set_textContent_absent by (by rewrite lookup_insert_ne).
    rewrite set_textContent_present by (by apply present_insert).
    eexists. split; [reflexivity|].
    split; [by rewrite lookup_insert_eq|]. split.
    { intros id Hid. rewrite !lookup_insert_ne by set_solver. done. }
    split; [done|].
    intros res' data' t' g' Hres Hjson' _ Ht' Hg'.
    rewrite decide_False by (by intros [? ?]).
    split; by simplify_map_eq.
Qed.

End MoreOfMissingElements.

Lemma poll_without_secondary_witness :
  ∃ d' : page,
    answered (Normal (Response 200 (Some reading_36_2)))
      (refreshData page_without_gas).1 page_without_gas
    = (Settled (Normal tt), d')
    ∧ d' !! liveData = Some "No live data available."
    ∧ d' !! tempSpan = Some "36.2 °C"
    ∧ d' !! gasSpan = None
    ∧ d' !! helmetSpan = Some "--"
    ∧ d' !! runBtn = page_without_gas !! runBtn.
Proof.
  assert (Hlive : is_Some (page_without_gas !! liveData))
    by (vm_compute; eexists; reflexivity).
  assert (Hgas : page_without_gas !! gasSpan = None) by (by vm_compute).
  destruct (poll_without_secondary page_without_gas page_without_gas
              (Normal (Response 200 (Some reading_36_2)))
              eq_refl Hlive (or_intror (or_introl Hgas)))
    as (d' & Hanswered & Hshown & Hframe & _ & Hwritten).
  destruct (Hwritten (Response 200 (Some reading_36_2)) reading_36_2
              "36.2" "120" eq_refl eq_refl eq_refl eq_refl eq_refl)
    as [Htemp Hgas'].
  exists d'. split; [exact Hanswered|]. split; [exact Hshown|].
  split; [exact Htemp|]. split; [exact Hgas'|].
  split; apply Hframe; set_solver.
Defined.

(** * Both scripts on one page *)

Section BothAtWork.

Context {Number : Type} {number : JSNumber Number} {arith : JSArith Number}.













End BothAtWork.


